(** * BioSynth-Designer: the ThreeDViewer component

    A shallow embedding of the [ThreeDViewer] React component
    (3D viewer of the DNA helix and of the organoid) and of the two
    effects it registers: the mount effect (scene, camera, renderer,
    lighting, resize handler) and the type effect (clear the scene,
    re-add the lights, build the structure selected by [type]).

    [src/App.js] and [src/unnamed/part_000] carry the same component, the
    first with more comments; the embedding follows the second.

    The component mutates objects held in refs ([sceneRef], [cameraRef],
    [rendererRef]), allocates three.js geometries and materials with [new],
    calls [dispose()] on them and draws from [Math.random()].  All of this
    is threaded explicitly through a [Viewer] state by a small state monad. *)

From Stdlib Require Import List ZArith QArith Reals Lra Lia String Bool Arith.
From Stdlib Require Import Ascii DecimalString Sorted.
Import ListNotations.

Set Implicit Arguments.

(** ** JavaScript numbers

    The arithmetic of the component ([+ - * /], [Math.cos], [Math.sin],
    [Math.PI], the square root used by [Vector3.normalize]) is an interface:
    everything structural is proved for every implementation of it, and the
    metric facts are proved for the real numbers. *)

Class JsMath (F : Type) : Type := {
  lit : Q -> F;                 (* a numeric literal *)
  js_add : F -> F -> F;
  js_sub : F -> F -> F;
  js_mul : F -> F -> F;
  js_div : F -> F -> F;
  js_neg : F -> F;
  Math_cos : F -> F;
  Math_sin : F -> F;
  Math_sqrt : F -> F;
  Math_PI : F
}.

Declare Scope js_scope.
Delimit Scope js_scope with js.
Infix "+" := js_add : js_scope.
Infix "-" := js_sub : js_scope.
Infix "*" := js_mul : js_scope.
Infix "/" := js_div : js_scope.
Notation "- x" := (js_neg x) : js_scope.

(** The loop counters are integers; they enter the arithmetic as numbers. *)
Definition ofNat {F} `{JsMath F} (i : nat) : F := lit (inject_Z (Z.of_nat i)).
Definition ofZ {F} `{JsMath F} (z : Z) : F := lit (inject_Z z).

(** ** What three.js draws

    The constructors of three.js call [Math.random()] themselves: every
    object with a [uuid] draws it with [generateUUID].  The library is not
    among the sources; how many draws each constructor makes is a
    parameter of the embedding. *)

Inductive ThreeClass : Type :=
| SceneClass | ColorClass | PerspectiveCameraClass | WebGLRendererClass
| OrbitControlsClass | AmbientLightClass | DirectionalLightClass
| MeshPhongMaterialClass | CylinderGeometryClass | SphereGeometryClass
| MeshClass.

Class ThreeJs : Type := { constructorDraws : ThreeClass -> nat }.

(** ** The scene graph *)

Section SceneGraph.
Context {F : Type} `{JsMath F}.

Record Vector3 : Type := vec3 { vx : F; vy : F; vz : F }.

Definition origin : Vector3 := vec3 (lit 0) (lit 0) (lit 0).

(** [Vector3.normalize()]: divide by the length.  (three.js divides by
    [length() || 1]; the fallback only concerns the zero vector.) *)
Definition normalize (p : Vector3) : Vector3 :=
  let len := Math_sqrt (vx p * vx p + vy p * vy p + vz p * vz p)%js in
  vec3 (vx p / len)%js (vy p / len)%js (vz p / len)%js.

Inductive GeometryParams : Type :=
| CylinderGeometry (radiusTop radiusBottom height : F) (radialSegments : Z)
| SphereGeometry (radius : F) (widthSegments heightSegments : Z).

Record MeshPhongMaterial : Type := phong {
  color : Z;
  shininess : F;
  transparent : bool;
  opacity : F
}.

(** Geometries and materials are heap objects: [new] gives each one an
    identity, here the value of the allocation counter. *)
Record Geometry : Type := { geo_id : nat; geo_params : GeometryParams }.
Record Material : Type := { mat_id : nat; mat_params : MeshPhongMaterial }.

(** [mesh.material] is a material or an array of materials. *)
Inductive MeshMaterial : Type :=
| SingleMaterial (m : Material)
| MaterialArray (ms : list Material).

Inductive Object3D : Type :=
| AmbientLight (light_color : Z) (intensity : F)
| DirectionalLight (light_color : Z) (intensity : F) (light_position : Vector3)
| Mesh (geometry : Geometry) (material : MeshMaterial)
       (position : Vector3) (rotation : Vector3).

Definition isMesh (o : Object3D) : bool :=
  match o with Mesh _ _ _ _ => true | _ => false end.

Record Camera : Type := {
  fov : F; aspect : F; near : F; far : F; camera_position : Vector3
}.

Record Renderer : Type := { width : Z; height : Z }.

(** The mount node, as far as the component reads it. *)
Record MountNode : Type := { clientWidth : Z; clientHeight : Z }.

(** ** The state of the component *)

Record Viewer : Type := {
  sceneRef : option (list Object3D);   (* sceneRef.current.children *)
  cameraRef : option Camera;
  rendererRef : option Renderer;
  next_id : nat;                       (* identities handed out by [new] *)
  dispose_log : list nat;              (* every dispose() call, in order *)
  random_src : nat -> F;               (* what Math.random() will return *)
  random_pos : nat;                    (* how many draws were made *)
  deps_type : option string            (* [type] at the last type effect *)
}.

Definition initialViewer (rnd : nat -> F) : Viewer :=
  {| sceneRef := None; cameraRef := None; rendererRef := None;
     next_id := 0; dispose_log := []; random_src := rnd; random_pos := 0;
     deps_type := None |}.

Definition with_scene (s : option (list Object3D)) (v : Viewer) : Viewer :=
  {| sceneRef := s; cameraRef := cameraRef v; rendererRef := rendererRef v;
     next_id := next_id v; dispose_log := dispose_log v;
     random_src := random_src v; random_pos := random_pos v;
     deps_type := deps_type v |}.

Definition with_camera (c : option Camera) (v : Viewer) : Viewer :=
  {| sceneRef := sceneRef v; cameraRef := c; rendererRef := rendererRef v;
     next_id := next_id v; dispose_log := dispose_log v;
     random_src := random_src v; random_pos := random_pos v;
     deps_type := deps_type v |}.

Definition with_renderer (r : option Renderer) (v : Viewer) : Viewer :=
  {| sceneRef := sceneRef v; cameraRef := cameraRef v; rendererRef := r;
     next_id := next_id v; dispose_log := dispose_log v;
     random_src := random_src v; random_pos := random_pos v;
     deps_type := deps_type v |}.

Definition with_next_id (n : nat) (v : Viewer) : Viewer :=
  {| sceneRef := sceneRef v; cameraRef := cameraRef v;
     rendererRef := rendererRef v;
     next_id := n; dispose_log := dispose_log v;
     random_src := random_src v; random_pos := random_pos v;
     deps_type := deps_type v |}.

Definition with_dispose_log (l : list nat) (v : Viewer) : Viewer :=
  {| sceneRef := sceneRef v; cameraRef := cameraRef v;
     rendererRef := rendererRef v;
     next_id := next_id v; dispose_log := l;
     random_src := random_src v; random_pos := random_pos v;
     deps_type := deps_type v |}.

Definition with_random_pos (n : nat) (v : Viewer) : Viewer :=
  {| sceneRef := sceneRef v; cameraRef := cameraRef v;
     rendererRef := rendererRef v;
     next_id := next_id v; dispose_log := dispose_log v;
     random_src := random_src v; random_pos := n;
     deps_type := deps_type v |}.

Definition with_deps_type (t : option string) (v : Viewer) : Viewer :=
  {| sceneRef := sceneRef v; cameraRef := cameraRef v;
     rendererRef := rendererRef v;
     next_id := next_id v; dispose_log := dispose_log v;
     random_src := random_src v; random_pos := random_pos v;
     deps_type := t |}.

(** The children of the scene; no scene, no children. *)
Definition children (v : Viewer) : list Object3D :=
  match sceneRef v with Some ch => ch | None => [] end.

(** ** The state monad *)

Definition M (A : Type) : Type := Viewer -> A * Viewer.

Definition ret {A} (a : A) : M A := fun v => (a, v).

Definition bind {A B} (c : M A) (k : A -> M B) : M B :=
  fun v => let (a, v') := c v in k a v'.

Definition exec {A} (c : M A) (v : Viewer) : Viewer := snd (c v).

End SceneGraph.

Arguments Vector3 F : clear implicits.
Arguments GeometryParams F : clear implicits.
Arguments MeshPhongMaterial F : clear implicits.
Arguments Geometry F : clear implicits.
Arguments Material F : clear implicits.
Arguments MeshMaterial F : clear implicits.
Arguments Object3D F : clear implicits.
Arguments Camera F : clear implicits.
Arguments Viewer F : clear implicits.
Arguments M F A : clear implicits.

Notation "x <- c ;; k" := (bind c (fun x => k))
  (at level 61, c at next level, right associativity).
Notation "c ;; k" := (bind c (fun _ => k))
  (at level 61, right associativity).

(** ** three.js and browser primitives *)

Section Component.
Context {F : Type} `{JsMath F} `{ThreeJs}.

Definition get {A} (f : Viewer F -> A) : M F A := fun v => (f v, v).
Definition modify (f : Viewer F -> Viewer F) : M F unit := fun v => (tt, f v).

(** What a constructor of three.js does to the global generator: it
    takes its draws.  It stands where the source has [new THREE.Mesh(..)],
    [new THREE.AmbientLight(..)] and the like. *)
Definition construct (c : ThreeClass) : M F unit :=
  modify (fun v => with_random_pos (random_pos v + constructorDraws c) v).

Definition geometryClass (p : GeometryParams F) : ThreeClass :=
  match p with
  | CylinderGeometry _ _ _ _ => CylinderGeometryClass
  | SphereGeometry _ _ _ => SphereGeometryClass
  end.

(** [new THREE.CylinderGeometry(..)], [new THREE.SphereGeometry(..)] *)
Definition newGeometry (p : GeometryParams F) : M F (Geometry F) :=
  construct (geometryClass p) ;;
  fun v => ({| geo_id := next_id v; geo_params := p |},
            with_next_id (S (next_id v)) v).

(** [new THREE.MeshPhongMaterial({..})] *)
Definition newMaterial (p : MeshPhongMaterial F) : M F (Material F) :=
  construct MeshPhongMaterialClass ;;
  fun v => ({| mat_id := next_id v; mat_params := p |},
            with_next_id (S (next_id v)) v).

(** [geometry.dispose()], [material.dispose()] *)
Definition dispose (id : nat) : M F unit :=
  modify (fun v => with_dispose_log (dispose_log v ++ [id]) v).

(** [sceneRef.current.add(object)]: the object is new, it is pushed. *)
Definition sceneAdd (o : Object3D F) : M F unit :=
  modify (fun v => with_scene (option_map (fun ch => ch ++ [o]) (sceneRef v)) v).

(** [sceneRef.current.remove(object)] for [object = children[0]]:
    [indexOf(object)] is 0 and [splice(0, 1)] drops the head. *)
Definition sceneRemoveFirst : M F unit :=
  modify (fun v => with_scene (option_map (@tl _) (sceneRef v)) v).

(** [Math.random()]: the next draw of the global generator. *)
Definition Math_random : M F F :=
  fun v => (random_src v (random_pos v), with_random_pos (S (random_pos v)) v).

(** [for (let i = start; ..; i++) body], run for [count] iterations. *)
Fixpoint forLoop (count start : nat) (body : nat -> M F unit) : M F unit :=
  match count with
  | O => ret tt
  | S count' => body start ;; forLoop count' (S start) body
  end.

(** [materials.forEach(material => material.dispose())] *)
Fixpoint disposeEach (ms : list (Material F)) : M F unit :=
  match ms with
  | [] => ret tt
  | m :: ms' => dispose (mat_id m) ;; disposeEach ms'
  end.

(** ** The mount effect

    Scene, camera, renderer and lights.  The background colour, the pixel
    ratio, the orbit controls and the animation loop are set up by the
    same effect and are read by nothing below, but for the draws their
    constructors take. *)

Definition ambientLight : Object3D F := AmbientLight 0xffffff (lit 0.6).

Definition directionalLight : Object3D F :=
  DirectionalLight 0xffffff (lit 0.8)
    (normalize (vec3 (lit 0) (lit 10) (lit 5))).

Definition addLighting : M F unit :=
  construct AmbientLightClass ;;
  sceneAdd ambientLight ;;
  construct DirectionalLightClass ;;
  sceneAdd directionalLight.

(** [onWindowResize], reading the mount node's current size. *)
Definition onWindowResize (currentMount : option MountNode) : M F unit :=
  cam <- get (@cameraRef F) ;;
  ren <- get (@rendererRef F) ;;
  match currentMount, cam, ren with
  | Some mount, Some camera, Some _ =>
      modify (with_camera (Some
        {| fov := fov camera;
           aspect := (ofZ (clientWidth mount) / ofZ (clientHeight mount))%js;
           near := near camera; far := far camera;
           camera_position := camera_position camera |})) ;;
      modify (with_renderer (Some
        {| width := clientWidth mount; height := clientHeight mount |}))
  | _, _, _ => ret tt
  end.

Definition mountEffect (currentMount : option MountNode) : M F unit :=
  match currentMount with
  | None => ret tt
  | Some mount =>
      construct SceneClass ;;
      modify (with_scene (Some [])) ;;
      construct ColorClass ;;
      construct PerspectiveCameraClass ;;
      modify (with_camera (Some
        {| fov := lit 75;
           aspect := (ofZ (clientWidth mount) / ofZ (clientHeight mount))%js;
           near := lit 0.1; far := lit 1000;
           camera_position := vec3 (lit 0) (lit 0) (lit 5) |})) ;;
      construct WebGLRendererClass ;;
      modify (with_renderer (Some
        {| width := clientWidth mount; height := clientHeight mount |})) ;;
      construct OrbitControlsClass ;;
      addLighting
  end.

(** ** The type effect *)

(** The body of the clearing loop, for [object = children[0]]. *)
Definition disposeObject (object : Object3D F) : M F unit :=
  match object with
  | Mesh geometry material _ _ =>
      dispose (geo_id geometry) ;;
      match material with
      | SingleMaterial m => dispose (mat_id m)
      | MaterialArray ms => disposeEach ms
      end
  | _ => ret tt
  end.

(** [while (children.length > 0) { .. }]; the fuel is the number of
    iterations allowed. *)
Fixpoint clearLoop (fuel : nat) : M F unit :=
  match fuel with
  | O => ret tt
  | S fuel' =>
      ch <- get (@children F) ;;
      match ch with
      | [] => ret tt
      | object :: _ =>
          disposeObject object ;;
          sceneRemoveFirst ;;
          clearLoop fuel'
      end
  end.

Definition clearScene : M F unit :=
  ch <- get (@children F) ;;
  clearLoop (List.length ch).

(** The [dna] branch.  [radius], [height] and [numSegments] are the
    constants of the source (1, 4 and 30); the meshes are named as there. *)
Definition angle1 (numSegments i : nat) : F :=
  (ofNat i / ofNat numSegments * Math_PI * lit 8)%js.

(** Computed by the source and not used. *)
Definition angle2 (numSegments i : nat) : F :=
  ((ofNat i + lit 0.5) / ofNat numSegments * Math_PI * lit 8)%js.

Definition cylinder1 (cylinderGeometry : Geometry F) (material : Material F)
    (radius height segmentHeight : F) (numSegments i : nat) : Object3D F :=
  Mesh cylinderGeometry (SingleMaterial material)
    (vec3 (radius * Math_cos (angle1 numSegments i))
          (radius * Math_sin (angle1 numSegments i))
          (ofNat i * segmentHeight - height / lit 2))%js
    origin.

Definition cylinder2 (cylinderGeometry : Geometry F) (material : Material F)
    (radius height segmentHeight : F) (numSegments i : nat) : Object3D F :=
  Mesh cylinderGeometry (SingleMaterial material)
    (vec3 (radius * Math_cos (angle1 numSegments i + Math_PI))
          (radius * Math_sin (angle1 numSegments i + Math_PI))
          (ofNat i * segmentHeight - height / lit 2))%js
    origin.

Definition basePair (basePairGeometry : Geometry F)
    (baseMaterial : Material F)
    (height segmentHeight : F) (numSegments i : nat) : Object3D F :=
  Mesh basePairGeometry (SingleMaterial baseMaterial)
    (vec3 (lit 0) (lit 0)
          ((ofNat i + lit 0.5) * segmentHeight - height / lit 2))%js
    (vec3 (lit 0) (lit 0) (angle1 numSegments i + Math_PI / lit 2))%js.

Definition dnaCore (coreGeometry : Geometry F) (coreMaterial : Material F)
    (height : F) : Object3D F :=
  Mesh coreGeometry (SingleMaterial coreMaterial)
    (vec3 (lit 0) (lit 0) (- height / lit 2))%js origin.

(** The arguments of the [new] expressions of the branch. *)
Definition backboneMaterial : MeshPhongMaterial F :=
  phong 0x007bff (lit 80) false (lit 1).
Definition purpleMaterial : MeshPhongMaterial F :=
  phong 0x800080 (lit 80) false (lit 1).
Definition orangeMaterial : MeshPhongMaterial F :=
  phong 0xffa500 (lit 100) false (lit 1).
Definition cylinderParams (segmentHeight : F) : GeometryParams F :=
  CylinderGeometry (lit 0.05) (lit 0.05) (segmentHeight + lit 0.1)%js 8.
Definition basePairParams (radius : F) : GeometryParams F :=
  CylinderGeometry (lit 0.03) (lit 0.03) (radius * lit 2)%js 8.
Definition dnaCoreParams : GeometryParams F := SphereGeometry (lit 0.3) 32 32.

(** One iteration of [for (let i = 0; i <= numSegments; i++)]. *)
Definition dnaSegment (material baseMaterial : Material F)
    (radius height segmentHeight : F) (numSegments i : nat) : M F unit :=
  cylinderGeometry <- newGeometry (cylinderParams segmentHeight) ;;
  construct MeshClass ;;
  sceneAdd (cylinder1 cylinderGeometry material
                      radius height segmentHeight numSegments i) ;;
  construct MeshClass ;;
  sceneAdd (cylinder2 cylinderGeometry material
                      radius height segmentHeight numSegments i) ;;
  if (i <? numSegments)%nat then
    basePairGeometry <- newGeometry (basePairParams radius) ;;
    construct MeshClass ;;
    sceneAdd (basePair basePairGeometry baseMaterial
                       height segmentHeight numSegments i)
  else ret tt.

Definition dnaBranch (radius height : F) (numSegments : nat) : M F unit :=
  material <- newMaterial backboneMaterial ;;
  baseMaterial <- newMaterial purpleMaterial ;;
  let segmentHeight := (height / ofNat numSegments)%js in
  forLoop (S numSegments) 0
    (dnaSegment material baseMaterial radius height segmentHeight
                numSegments) ;;
  coreGeometry <- newGeometry dnaCoreParams ;;
  coreMaterial <- newMaterial orangeMaterial ;;
  construct MeshClass ;;
  sceneAdd (dnaCore coreGeometry coreMaterial height).

(** The [organoid] branch.  [cellCount] is the loop bound of the source
    (50). *)
Definition organoidCore (coreGeometry : Geometry F)
    (coreMaterial : Material F) : Object3D F :=
  Mesh coreGeometry (SingleMaterial coreMaterial) origin origin.

Definition outerLayer (outerLayerGeometry : Geometry F)
    (outerLayerMaterial : Material F) : Object3D F :=
  Mesh outerLayerGeometry (SingleMaterial outerLayerMaterial) origin origin.

(** A cell, from the three draws of its iteration. *)
Definition cellPosition (u1 u2 u3 : F) : Vector3 F :=
  let phi := (u1 * Math_PI * lit 2)%js in
  let theta := (u2 * Math_PI)%js in
  let r := (u3 * lit 0.8)%js in
  (vec3 (r * Math_sin theta * Math_cos phi)
        (r * Math_sin theta * Math_sin phi)
        (r * Math_cos theta))%js.

Definition cell (cellsGeometry : Geometry F) (cellMaterial : Material F)
    (u1 u2 u3 : F) : Object3D F :=
  Mesh cellsGeometry (SingleMaterial cellMaterial)
       (cellPosition u1 u2 u3) origin.

Definition organoidCoreParams : GeometryParams F :=
  SphereGeometry (lit 1.0) 32 32.
Definition tomatoMaterial : MeshPhongMaterial F :=
  phong 0xff6347 (lit 50) true (lit 0.8).
Definition outerLayerParams : GeometryParams F :=
  SphereGeometry (lit 1.2) 32 32.
Definition steelBlueMaterial : MeshPhongMaterial F :=
  phong 0x4682b4 (lit 50) true (lit 0.6).
Definition cellsParams : GeometryParams F := SphereGeometry (lit 0.1) 16 16.
Definition lightGreenMaterial : MeshPhongMaterial F :=
  phong 0x90ee90 (lit 30) false (lit 1).

(** One iteration of [for (let i = 0; i < 50; i++)]. *)
Definition organoidCell (cellsGeometry : Geometry F)
    (cellMaterial : Material F) (i : nat) : M F unit :=
  construct MeshClass ;;
  u1 <- Math_random ;;
  u2 <- Math_random ;;
  u3 <- Math_random ;;
  sceneAdd (cell cellsGeometry cellMaterial u1 u2 u3).

Definition organoidBranch (cellCount : nat) : M F unit :=
  coreGeometry <- newGeometry organoidCoreParams ;;
  coreMaterial <- newMaterial tomatoMaterial ;;
  construct MeshClass ;;
  sceneAdd (organoidCore coreGeometry coreMaterial) ;;
  outerLayerGeometry <- newGeometry outerLayerParams ;;
  outerLayerMaterial <- newMaterial steelBlueMaterial ;;
  construct MeshClass ;;
  sceneAdd (outerLayer outerLayerGeometry outerLayerMaterial) ;;
  cellsGeometry <- newGeometry cellsParams ;;
  cellMaterial <- newMaterial lightGreenMaterial ;;
  forLoop cellCount 0 (organoidCell cellsGeometry cellMaterial).

(** The effect registered with the dependency array [[type]]. *)
Definition typeEffectWith (radius height : F) (numSegments cellCount : nat)
    (type : string) : M F unit :=
  sc <- get (@sceneRef F) ;;
  match sc with
  | Some _ => clearScene ;; addLighting
  | None => ret tt
  end ;;
  sc' <- get (@sceneRef F) ;;
  match sc' with
  | Some _ =>
      if String.eqb type "dna" then dnaBranch radius height numSegments
      else if String.eqb type "organoid" then organoidBranch cellCount
      else ret tt
  | None => ret tt
  end.

Definition typeEffect : string -> M F unit :=
  typeEffectWith (lit 1) (lit 4) 30 50.

(** ** The component under React *)

(** First render: both effects run, in the order they are registered. *)
Definition firstRender (currentMount : option MountNode) (type : string)
    : M F unit :=
  mountEffect currentMount ;;
  typeEffect type ;;
  modify (with_deps_type (Some type)).

(** A later render: the type effect runs when [type] has changed. *)
Definition rerender (type : string) : M F unit :=
  last <- get (@deps_type F) ;;
  match last with
  | Some t => if String.eqb t type then ret tt
              else typeEffect type ;; modify (with_deps_type (Some type))
  | None => typeEffect type ;; modify (with_deps_type (Some type))
  end.

(** A sequence of structure-type switches: the type effect, once per
    switch. *)
Definition switchTo (type : string) (v : Viewer F) : Viewer F :=
  exec (typeEffect type) v.

Definition switches (types : list string) (v : Viewer F) : Viewer F :=
  fold_left (fun v t => switchTo t v) types v.

(** The viewer once mounted in a node of the given size. *)
Definition mounted (rnd : nat -> F) (w h : Z) : Viewer F :=
  exec (mountEffect (Some {| clientWidth := w; clientHeight := h |}))
       (initialViewer rnd).

End Component.

(** ** What is observed of a run *)

Section Observations.
Context {F : Type} `{JsMath F} `{ThreeJs}.

(** The resources a node holds, in the order the clearing loop disposes
    of them. *)
Definition materialIds (m : MeshMaterial F) : list nat :=
  match m with
  | SingleMaterial m => [mat_id m]
  | MaterialArray ms => map (@mat_id F) ms
  end.

Definition resourcesOf (o : Object3D F) : list nat :=
  match o with
  | Mesh geometry material _ _ => geo_id geometry :: materialIds material
  | _ => []
  end.

Definition sceneResources (ch : list (Object3D F)) : list nat :=
  flat_map resourcesOf ch.

(** Number of [dispose()] calls received by the resource [id]. *)
Definition disposeCount (id : nat) (v : Viewer F) : nat :=
  count_occ Nat.eq_dec (dispose_log v) id.

(** Number of nodes of a scene that hold the resource [id]. *)
Definition holders (id : nat) (ch : list (Object3D F)) : nat :=
  count_occ Nat.eq_dec (sceneResources ch) id.

(** Content nodes are the meshes; the rest of the scene is lighting. *)
Definition contentNodes (v : Viewer F) : list (Object3D F) :=
  filter (@isMesh F) (children v).

Definition isAmbientLight (o : Object3D F) : bool :=
  match o with AmbientLight _ _ => true | _ => false end.

Definition isDirectionalLight (o : Object3D F) : bool :=
  match o with DirectionalLight _ _ _ => true | _ => false end.

Definition positionOf (o : Object3D F) : option (Vector3 F) :=
  match o with Mesh _ _ p _ => Some p | _ => None end.

(** A node without the identities of its resources: what it draws. *)
Definition eraseIds (o : Object3D F) : Object3D F :=
  match o with
  | Mesh g m p r =>
      Mesh {| geo_id := 0; geo_params := geo_params g |}
           (match m with
            | SingleMaterial m =>
                SingleMaterial {| mat_id := 0; mat_params := mat_params m |}
            | MaterialArray ms =>
                MaterialArray
                  (map (fun m => {| mat_id := 0; mat_params := mat_params m |})
                       ms)
            end) p r
  | _ => o
  end.

(** Every resource of the nodes [ch] was allocated at or after [lo] and
    before [hi]. *)
Definition allocatedWithin (lo hi : nat) (ch : list (Object3D F)) : Prop :=
  Forall (fun id => lo <= id < hi)%nat (sceneResources ch).

(** *** The nodes each branch adds, in closed form *)

Definition lighting : list (Object3D F) := [ambientLight; directionalLight].

(** Iteration [i] of the helix loop, when it starts with the allocation
    counter at [id]. *)
Definition dnaSegmentNodes (material baseMaterial : Material F)
    (radius height segmentHeight : F) (numSegments id i : nat)
    : list (Object3D F) :=
  let cylinderGeometry :=
    {| geo_id := id; geo_params := cylinderParams segmentHeight |} in
  [ cylinder1 cylinderGeometry material
              radius height segmentHeight numSegments i;
    cylinder2 cylinderGeometry material
              radius height segmentHeight numSegments i ]
  ++ (if (i <? numSegments)%nat then
        [ basePair {| geo_id := S id; geo_params := basePairParams radius |}
                   baseMaterial height segmentHeight numSegments i ]
      else []).

(** The allocation counter at the start of iteration [i], the loop having
    started at [b]: two geometries per iteration below [numSegments]. *)
Definition dnaSegmentId (numSegments b i : nat) : nat :=
  (b + i + Nat.min i numSegments)%nat.

(** The helix built with the allocation counter at [b]. *)
Definition dnaNodes (radius height : F) (numSegments b : nat)
    : list (Object3D F) :=
  let material := {| mat_id := b; mat_params := backboneMaterial |} in
  let baseMaterial := {| mat_id := S b; mat_params := purpleMaterial |} in
  let segmentHeight := (height / ofNat numSegments)%js in
  flat_map (fun i =>
      dnaSegmentNodes material baseMaterial radius height segmentHeight
        numSegments (dnaSegmentId numSegments (b + 2) i) i)
    (seq 0 (S numSegments))
  ++ [ dnaCore {| geo_id := b + 2 * numSegments + 3;
                  geo_params := dnaCoreParams |}
               {| mat_id := b + 2 * numSegments + 4;
                  mat_params := orangeMaterial |} height ].

(** The draws of the constructors: of the two lights, of an iteration of
    the helix loop and of the whole helix, of the organoid before its
    cells. *)
Definition lightingDraws : nat :=
  (constructorDraws AmbientLightClass
   + constructorDraws DirectionalLightClass)%nat.

Definition dnaSegmentDraws (numSegments i : nat) : nat :=
  (constructorDraws CylinderGeometryClass + 2 * constructorDraws MeshClass
   + (if (i <? numSegments)%nat
      then constructorDraws CylinderGeometryClass + constructorDraws MeshClass
      else 0))%nat.

Definition dnaDraws (numSegments : nat) : nat :=
  (2 * constructorDraws MeshPhongMaterialClass
   + list_sum (map (dnaSegmentDraws numSegments) (seq 0 (S numSegments)))
   + constructorDraws SphereGeometryClass
   + constructorDraws MeshPhongMaterialClass
   + constructorDraws MeshClass)%nat.

Definition organoidSetupDraws : nat :=
  (3 * constructorDraws SphereGeometryClass
   + 3 * constructorDraws MeshPhongMaterialClass
   + 2 * constructorDraws MeshClass)%nat.

(** Where in the stream of the generator the draw [j] (0 for phi, 1 for
    theta, 2 for r) of cell [i] is, the loop starting at [pos]: each
    iteration constructs its mesh, then draws three times. *)
Definition cellDrawInLoop (pos i j : nat) : nat :=
  (pos + i * (constructorDraws MeshClass + 3)
   + constructorDraws MeshClass + j)%nat.

(** The same, for a switch to ["organoid"] that starts at [pos]. *)
Definition cellDraw (pos i j : nat) : nat :=
  cellDrawInLoop (pos + lightingDraws + organoidSetupDraws) i j.

(** The cells placed by iterations [0 .. count - 1] of a loop that starts
    with the generator of stream [rnd] at [pos]. *)
Definition organoidCells (cellsGeometry : Geometry F)
    (cellMaterial : Material F) (rnd : nat -> F) (pos count : nat)
    : list (Object3D F) :=
  map (fun i => cell cellsGeometry cellMaterial
                  (rnd (cellDrawInLoop pos i 0))
                  (rnd (cellDrawInLoop pos i 1))
                  (rnd (cellDrawInLoop pos i 2)))
      (seq 0 count).

(** The organoid built with the allocation counter at [b] and the
    generator at [pos]. *)
Definition organoidNodes (cellCount b : nat) (rnd : nat -> F) (pos : nat)
    : list (Object3D F) :=
  [ organoidCore {| geo_id := b; geo_params := organoidCoreParams |}
                 {| mat_id := b + 1; mat_params := tomatoMaterial |};
    outerLayer {| geo_id := b + 2; geo_params := outerLayerParams |}
               {| mat_id := b + 3; mat_params := steelBlueMaterial |} ]
  ++ organoidCells {| geo_id := b + 4; geo_params := cellsParams |}
                   {| mat_id := b + 5; mat_params := lightGreenMaterial |}
                   rnd (pos + organoidSetupDraws) cellCount.

(** What a switch to [type] builds, allocates and draws. *)
Definition builtNodes (radius height : F) (numSegments cellCount : nat)
    (type : string) (b : nat) (rnd : nat -> F) (pos : nat)
    : list (Object3D F) :=
  if String.eqb type "dna" then dnaNodes radius height numSegments b
  else if String.eqb type "organoid" then organoidNodes cellCount b rnd pos
  else [].

Definition builtIds (numSegments : nat) (type : string) : nat :=
  if String.eqb type "dna" then (2 * numSegments + 5)%nat
  else if String.eqb type "organoid" then 6%nat
  else 0%nat.

Definition builtDraws (numSegments cellCount : nat) (type : string) : nat :=
  if String.eqb type "dna" then dnaDraws numSegments
  else if String.eqb type "organoid"
       then (organoidSetupDraws
             + cellCount * (constructorDraws MeshClass + 3))%nat
  else 0%nat.

(** The draws of the mount effect: the scene and its background, the
    camera, the renderer, the controls and the two lights. *)
Definition mountDraws : nat :=
  (constructorDraws SceneClass + constructorDraws ColorClass
   + constructorDraws PerspectiveCameraClass
   + constructorDraws WebGLRendererClass
   + constructorDraws OrbitControlsClass + lightingDraws)%nat.

(** The draws of a whole switch of the source: the two lights, then the
    structure. *)
Definition switchDraws (type : string) : nat :=
  (lightingDraws + builtDraws 30 50 type)%nat.

(** Number of content nodes a switch to [type] allocates. *)
Definition nodesAllocated (numSegments cellCount : nat) (type : string)
    : nat :=
  if String.eqb type "dna" then (3 * numSegments + 3)%nat
  else if String.eqb type "organoid" then (cellCount + 2)%nat
  else 0%nat.

Definition totalNodesAllocated (types : list string) : nat :=
  list_sum (map (nodesAllocated 30 50) types).

Definition totalResourcesAllocated (types : list string) : nat :=
  list_sum (map (builtIds 30) types).

(** Whether the mount effect has created the scene. *)
Definition isMounted (v : Viewer F) : bool :=
  match sceneRef v with Some _ => true | None => false end.

(** The nodes a command adds to the scene it runs on. *)
Definition addedNodes (c : M F unit) (v : Viewer F) : list (Object3D F) :=
  skipn (List.length (children v)) (children (exec c v)).

(** The primitives of a structure are told apart by the colour of their
    material. *)
Definition hasColor (c : Z) (o : Object3D F) : bool :=
  match o with
  | Mesh _ (SingleMaterial m) _ _ => Z.eqb (color (mat_params m)) c
  | _ => false
  end.

Definition countColor (c : Z) (ch : list (Object3D F)) : nat :=
  List.length (filter (hasColor c) ch).

(** The cells of an organoid, and where they are. *)
Definition cellNodes (v : Viewer F) : list (Object3D F) :=
  filter (hasColor 0x90ee90) (children v).

Definition cellCoordinates (v : Viewer F) : list (option (Vector3 F)) :=
  map positionOf (cellNodes v).

(** The coordinates (position and rotation) of the content nodes. *)
Definition transformOf (o : Object3D F) : option (Vector3 F * Vector3 F) :=
  match o with Mesh _ _ p r => Some (p, r) | _ => None end.

Definition coordinates (v : Viewer F) : list (option (Vector3 F * Vector3 F)) :=
  map transformOf (contentNodes v).

(** A mesh with one material, both of its resources allocated at or after
    [lo] and before [hi]. *)
Definition freshMesh (lo hi : nat) (o : Object3D F) : Prop :=
  exists g m p r,
    o = Mesh g (SingleMaterial m) p r /\
    (lo <= geo_id g < hi)%nat /\ (lo <= mat_id m < hi)%nat.

(** Every identity in the dispose log and in the scene was handed out. *)
Definition wellAllocated (v : Viewer F) : Prop :=
  Forall (fun id => id < next_id v)%nat (dispose_log v) /\
  Forall (fun id => id < next_id v)%nat (sceneResources (children v)).

End Observations.

(** ** The real numbers as arithmetic *)

#[export] Instance RMath : JsMath R := {|
  lit := Q2R;
  js_add := Rplus;
  js_sub := Rminus;
  js_mul := Rmult;
  js_div := Rdiv;
  js_neg := Ropp;
  Math_cos := cos;
  Math_sin := sin;
  Math_sqrt := sqrt;
  Math_PI := PI
|}.

(** The draws of three.js as it stands: [generateUUID] draws four times;
    [Color] and [OrbitControls] have no uuid; a directional light builds
    its target and the camera of its shadow besides itself; the renderer
    builds the materials, the geometry and the mesh of its shadow map and
    three cameras for XR (its count varies with the release). *)
#[export] Instance threeJs : ThreeJs := {|
  constructorDraws := fun c =>
    match c with
    | ColorClass | OrbitControlsClass => 0%nat
    | DirectionalLightClass => 12%nat
    | WebGLRendererClass => 36%nat
    | _ => 4%nat
    end
|}.

(** Distance of a point from the origin. *)
Definition distanceToOrigin (p : Vector3 R) : R :=
  sqrt (vx p * vx p + vy p * vy p + vz p * vz p)%R.

(** A viewer mounted in an 800 by 600 node, the generator on a constant
    stream. *)
Definition sampleViewer : Viewer R := mounted (fun _ => 0%R) 800 600.


(** A generator whose draws rise towards 1: 0, 1/2, 2/3, 3/4, ... *)
Definition risingDraws (k : nat) : R := (INR k / (INR k + 1))%R.

(** The same, but for its first hundred draws, which are 0. *)
Definition lateRisingDraws (k : nat) : R :=
  if (k <? 100)%nat then 0%R else risingDraws k.

(** Viewers mounted with the generator on these streams. *)
Definition risingViewer : Viewer R := mounted risingDraws 800 600.
Definition lateRisingViewer : Viewer R := mounted lateRisingDraws 800 600.

(** A generator all of whose draws are in [0, 1). *)
Definition unitDraws (rnd : nat -> R) : Prop :=
  forall k, (0 <= rnd k < 1)%R.

(** ** The page around the viewer

    What the mount effect sets up besides the scene: the animation loop
    ([animate], [requestAnimationFrame]), the resize listener, the canvas
    in the mount node, and the cleanup the effect returns. *)

Section Lifecycle.
Context {F : Type} `{JsMath F} `{ThreeJs}.

Record Page : Type := {
  viewer : Viewer F;
  live : bool;                         (* the component is in the tree *)
  cleanup_registered : bool;           (* the mount effect returned it *)
  animationFrameIdRef : option nat;
  raf_next : nat;                      (* next handle of the browser *)
  raf_pending : list nat;              (* callbacks requested, not run *)
  render_calls : nat;                  (* renderer.render(scene, camera) *)
  resize_listener : bool;
  canvas_attached : bool;
  renderer_disposed : bool;
  controls_disposed : bool
}.

Definition initialPage (rnd : nat -> F) : Page :=
  {| viewer := initialViewer rnd; live := false; cleanup_registered := false;
     animationFrameIdRef := None; raf_next := 1; raf_pending := [];
     render_calls := 0; resize_listener := false; canvas_attached := false;
     renderer_disposed := false; controls_disposed := false |}.

(** Run a command of the viewer in the page. *)
Definition onViewer (c : M F unit) (p : Page) : Page :=
  {| viewer := exec c (viewer p); live := live p;
     cleanup_registered := cleanup_registered p;
     animationFrameIdRef := animationFrameIdRef p;
     raf_next := raf_next p; raf_pending := raf_pending p;
     render_calls := render_calls p; resize_listener := resize_listener p;
     canvas_attached := canvas_attached p;
     renderer_disposed := renderer_disposed p;
     controls_disposed := controls_disposed p |}.

(** [animate]: render when the three refs are set, then request the next
    frame and keep its handle. *)
Definition animate (p : Page) : Page :=
  let rendered :=
    match rendererRef (viewer p), sceneRef (viewer p), cameraRef (viewer p) with
    | Some _, Some _, Some _ => S (render_calls p)
    | _, _, _ => render_calls p
    end in
  {| viewer := viewer p; live := live p;
     cleanup_registered := cleanup_registered p;
     animationFrameIdRef := Some (raf_next p);
     raf_next := S (raf_next p);
     raf_pending := raf_pending p ++ [raf_next p];
     render_calls := rendered; resize_listener := resize_listener p;
     canvas_attached := canvas_attached p;
     renderer_disposed := renderer_disposed p;
     controls_disposed := controls_disposed p |}.

(** A frame of the browser: the callbacks requested so far are run, here
    all of them [animate]; what they request waits for the next frame. *)
Definition frame (p : Page) : Page :=
  fold_left (fun q _ => animate q) (raf_pending p)
    {| viewer := viewer p; live := live p;
       cleanup_registered := cleanup_registered p;
       animationFrameIdRef := animationFrameIdRef p;
       raf_next := raf_next p; raf_pending := [];
       render_calls := render_calls p; resize_listener := resize_listener p;
       canvas_attached := canvas_attached p;
       renderer_disposed := renderer_disposed p;
       controls_disposed := controls_disposed p |}.

(** [cancelAnimationFrame(handle)]; [null] names no request. *)
Definition cancelAnimationFrame (handle : option nat) (pending : list nat)
    : list nat :=
  match handle with
  | Some h => filter (fun k => negb (Nat.eqb k h)) pending
  | None => pending
  end.

(** [scene.traverse(object => ..)] of the cleanup: the scene, which is no
    mesh, then its children in order; the children have none of their
    own. *)
Fixpoint traverseDispose (objects : list (Object3D F)) : M F unit :=
  match objects with
  | [] => ret tt
  | object :: rest => disposeObject object ;; traverseDispose rest
  end.

(** The cleanup returned by the mount effect. *)
Definition cleanup (p : Page) : Page :=
  {| viewer := exec (ch <- get (@children F) ;; traverseDispose ch) (viewer p);
     live := live p;
     cleanup_registered := cleanup_registered p;
     animationFrameIdRef := animationFrameIdRef p;
     raf_next := raf_next p;
     raf_pending := cancelAnimationFrame (animationFrameIdRef p) (raf_pending p);
     render_calls := render_calls p; resize_listener := false;
     canvas_attached := false;
     renderer_disposed := true;
     controls_disposed := true |}.

(** The whole mount effect: nothing without a mount node; else the scene,
    camera, renderer and lights of [mountEffect], the canvas, the resize
    listener, the first [animate()], and the cleanup handed to React. *)
Definition mountEffectPage (currentMount : option MountNode) (p : Page)
    : Page :=
  match currentMount with
  | None => p
  | Some mount =>
      let p1 := onViewer (mountEffect (Some mount)) p in
      let p2 := animate
        {| viewer := viewer p1; live := live p1;
           cleanup_registered := cleanup_registered p1;
           animationFrameIdRef := animationFrameIdRef p1;
           raf_next := raf_next p1; raf_pending := raf_pending p1;
           render_calls := render_calls p1; resize_listener := true;
           canvas_attached := true;
           renderer_disposed := renderer_disposed p1;
           controls_disposed := controls_disposed p1 |} in
      {| viewer := viewer p2; live := live p2;
         cleanup_registered := true;
         animationFrameIdRef := animationFrameIdRef p2;
         raf_next := raf_next p2; raf_pending := raf_pending p2;
         render_calls := render_calls p2;
         resize_listener := resize_listener p2;
         canvas_attached := canvas_attached p2;
         renderer_disposed := renderer_disposed p2;
         controls_disposed := controls_disposed p2 |}
  end.

Definition set_live (b : bool) (p : Page) : Page :=
  {| viewer := viewer p; live := b;
     cleanup_registered := cleanup_registered p;
     animationFrameIdRef := animationFrameIdRef p;
     raf_next := raf_next p; raf_pending := raf_pending p;
     render_calls := render_calls p; resize_listener := resize_listener p;
     canvas_attached := canvas_attached p;
     renderer_disposed := renderer_disposed p;
     controls_disposed := controls_disposed p |}.

(** First render of the component: the mount effect, then the type
    effect. *)
Definition pageFirstRender (currentMount : option MountNode) (type : string)
    (p : Page) : Page :=
  onViewer (typeEffect type ;; modify (with_deps_type (Some type)))
    (mountEffectPage currentMount (set_live true p)).

(** Unmount: React runs the cleanup the mount effect returned, if any. *)
Definition unmount (p : Page) : Page :=
  set_live false (if cleanup_registered p then cleanup p else p).

(** What happens to a page. *)
Inductive Event : Type :=
| Frame                                  (* the browser paints *)
| SetViewerType (type : string)          (* a button of the 3D viewer *)
| WindowResize (clientWidth clientHeight : Z).

Definition handle (p : Page) (e : Event) : Page :=
  match e with
  | Frame => frame p
  | SetViewerType type => if live p then onViewer (rerender type) p else p
  | WindowResize w h =>
      if resize_listener p
      then onViewer (onWindowResize
                       (Some {| clientWidth := w; clientHeight := h |})) p
      else p
  end.

Definition handleAll (events : list Event) (p : Page) : Page :=
  fold_left handle events p.

Definition isFrame (e : Event) : bool :=
  match e with Frame => true | _ => false end.

(** The three refs [animate] tests. *)
Definition refsSet (v : Viewer F) : bool :=
  match rendererRef v, sceneRef v, cameraRef v with
  | Some _, Some _, Some _ => true
  | _, _, _ => false
  end.

(** The page of a mounted component whose loop has requested the frame
    with handle [k]. *)
Definition running (k : nat) (p : Page) : Prop :=
  refsSet (viewer p) = true /\ live p = true /\
  cleanup_registered p = true /\
  animationFrameIdRef p = Some k /\ raf_next p = S k /\
  raf_pending p = [k] /\ render_calls p = k /\
  resize_listener p = true /\ canvas_attached p = true /\
  renderer_disposed p = false /\ controls_disposed p = false.

(** Every identity handed out is in the dispose log or held by a node of
    the scene. *)
Definition accounted (v : Viewer F) : Prop :=
  forall id, (id < next_id v)%nat ->
    In id (dispose_log v) \/ In id (sceneResources (children v)).

(** Where the node of index [k] of a list of nodes is. *)
Definition nodePosition (nodes : list (Object3D F)) (k : nat)
    : option (Vector3 F) :=
  match nth_error nodes k with
  | Some o => positionOf o
  | None => None
  end.

(** Renders with the given types, one after the other. *)
Definition renders (types : list string) (v : Viewer F) : Viewer F :=
  fold_left (fun v t => exec (rerender t) v) types v.

End Lifecycle.

Arguments Page F : clear implicits.

(** The types that differ from the one before them: the renders that run
    the type effect. *)
Fixpoint changesOf (last : string) (types : list string) : list string :=
  match types with
  | [] => []
  | t :: rest =>
      if String.eqb last t then changesOf last rest
      else t :: changesOf t rest
  end.

(** ** The App component: the DNA construct and its export *)

Module App.
Local Open Scope string_scope.

Record DnaElement : Type := { id : Z; type : string; name : string }.


(** A count in a template literal: its decimal digits. *)
Definition numberToString (n : nat) : string :=
  NilZero.string_of_uint (Nat.to_uint n).

(** [addDnaElement(type)], with the value of [Date.now()]. *)
Definition addDnaElement (now : Z) (type : string)
    (dnaElements : list DnaElement) : list DnaElement :=
  (dnaElements ++
   [ {| id := now; type := type;
        name := type ++ " "
                ++ numberToString (List.length dnaElements + 1) |} ])%list.

(** [removeDnaElement(id)] *)
Definition removeDnaElement (id0 : Z) (dnaElements : list DnaElement)
    : list DnaElement :=
  filter (fun el => negb (Z.eqb (id el) id0)) dnaElements.


(** Identifiers that grow along the list, as [Date.now()] gives them when
    no two elements are added within a millisecond. *)
Definition increasingIds (dnaElements : list DnaElement) : Prop :=
  StronglySorted Z.lt (map id dnaElements).

End App.

(** * Running the effects *)

Unset Implicit Arguments.

Section Execution.
Context {F : Type} `{JsMath F} `{ThreeJs}.

Lemma exec_bind A B (c : M F A) (k : A -> M F B) (v : Viewer F) :
  exec (bind c k) v = exec (k (fst (c v))) (snd (c v)).
Proof. unfold exec, bind. destruct (c v); reflexivity. Qed.

Lemma exec_seq A B (c : M F A) (k : M F B) (v : Viewer F) :
  exec (c ;; k) v = exec k (exec c v).
Proof. apply exec_bind. Qed.

Lemma exec_ret A (a : A) (v : Viewer F) : exec (ret a) v = v.
Proof. reflexivity. Qed.

Lemma get_run A (f : Viewer F -> A) (v : Viewer F) : get f v = (f v, v).
Proof. reflexivity. Qed.

Lemma modify_exec (f : Viewer F -> Viewer F) (v : Viewer F) :
  exec (modify f) v = f v.
Proof. reflexivity. Qed.

(** Two viewers with the same fields are the same viewer. *)
Lemma viewer_ext (v w : Viewer F) :
  sceneRef v = sceneRef w -> cameraRef v = cameraRef w ->
  rendererRef v = rendererRef w -> next_id v = next_id w ->
  dispose_log v = dispose_log w -> random_src v = random_src w ->
  random_pos v = random_pos w -> deps_type v = deps_type w -> v = w.
Proof. destruct v, w; simpl; intros; subst; reflexivity. Qed.

Ltac viewer_fields :=
  apply viewer_ext;
  cbn [sceneRef cameraRef rendererRef next_id dispose_log random_src
       random_pos deps_type with_scene with_camera with_renderer
       with_next_id with_dispose_log with_random_pos with_deps_type];
  try reflexivity.

Lemma sceneAdd_exec (o : Object3D F) v ch :
  sceneRef v = Some ch ->
  exec (sceneAdd o) v = with_scene (Some (ch ++ [o])) v.
Proof. intros E. unfold exec, sceneAdd, modify; simpl. now rewrite E. Qed.

Lemma construct_exec (c : ThreeClass) (v : Viewer F) :
  exec (construct c) v =
  with_random_pos (random_pos v + constructorDraws c) v.
Proof. reflexivity. Qed.

Lemma addLighting_exec (v : Viewer F) ch :
  sceneRef v = Some ch ->
  exec addLighting v =
  with_random_pos (random_pos v + lightingDraws)
    (with_scene (Some (ch ++ lighting)) v).
Proof.
  intros E. unfold addLighting.
  rewrite exec_seq, construct_exec.
  rewrite exec_seq. erewrite sceneAdd_exec by exact E.
  rewrite exec_seq, construct_exec.
  erewrite sceneAdd_exec by reflexivity.
  viewer_fields.
  - unfold lighting. now rewrite <- app_assoc.
  - unfold lightingDraws. lia.
Qed.

Lemma dispose_exec (id : nat) (v : Viewer F) :
  exec (dispose id) v = with_dispose_log (dispose_log v ++ [id]) v.
Proof. reflexivity. Qed.

Lemma disposeEach_exec (ms : list (Material F)) v :
  exec (disposeEach ms) v =
  with_dispose_log (dispose_log v ++ map (@mat_id F) ms) v.
Proof.
  revert v; induction ms as [|m ms IH]; intros v; simpl.
  - rewrite exec_ret. viewer_fields. now rewrite app_nil_r.
  - rewrite exec_seq, IH, dispose_exec. viewer_fields.
    now rewrite <- app_assoc.
Qed.

Lemma disposeObject_exec (o : Object3D F) v :
  exec (disposeObject o) v =
  with_dispose_log (dispose_log v ++ resourcesOf o) v.
Proof.
  destruct o as [c i|c i p|g m p r]; simpl;
    try (rewrite exec_ret; viewer_fields; now rewrite app_nil_r).
  rewrite exec_seq, dispose_exec. destruct m as [m|ms].
  - rewrite dispose_exec. viewer_fields. now rewrite <- app_assoc.
  - rewrite disposeEach_exec. viewer_fields. now rewrite <- app_assoc.
Qed.

Lemma sceneRemoveFirst_exec (v : Viewer F) :
  exec sceneRemoveFirst v = with_scene (option_map (@tl _) (sceneRef v)) v.
Proof. reflexivity. Qed.

(** The clearing loop empties the scene when it is given one iteration
    per child, and disposes of the resources of every child in turn. *)
Lemma clearLoop_exec fuel : forall (v : Viewer F) (ch : list (Object3D F)),
  sceneRef v = Some ch -> (List.length ch <= fuel)%nat ->
  exec (clearLoop fuel) v =
  with_dispose_log (dispose_log v ++ sceneResources ch)
                   (with_scene (Some []) v).
Proof.
  induction fuel as [|fuel IH]; intros v ch E L.
  - destruct ch; [|simpl in L; lia]. simpl. rewrite exec_ret.
    viewer_fields; [assumption | now rewrite app_nil_r].
  - simpl. rewrite exec_bind. unfold get at 1 2; simpl.
    unfold children at 1. rewrite E.
    destruct ch as [|o ch].
    + rewrite exec_ret. viewer_fields; [assumption | now rewrite app_nil_r].
    + rewrite exec_seq, disposeObject_exec, exec_seq, sceneRemoveFirst_exec.
      erewrite IH with (ch := ch).
      * viewer_fields. unfold sceneResources; simpl flat_map.
        now rewrite <- app_assoc.
      * cbn [sceneRef with_scene with_dispose_log]. now rewrite E.
      * simpl in L; lia.
Qed.

Lemma clearScene_exec (v : Viewer F) ch :
  sceneRef v = Some ch ->
  exec clearScene v =
  with_dispose_log (dispose_log v ++ sceneResources ch)
                   (with_scene (Some []) v).
Proof.
  intros E. unfold clearScene. rewrite exec_bind.
  unfold get at 1 2; simpl. apply clearLoop_exec; [assumption|].
  unfold children. now rewrite E.
Qed.

Lemma newGeometry_exec (p : GeometryParams F) (v : Viewer F) :
  newGeometry p v =
  ({| geo_id := next_id v; geo_params := p |},
   with_next_id (S (next_id v))
     (with_random_pos (random_pos v + constructorDraws (geometryClass p)) v)).
Proof. reflexivity. Qed.

Lemma newMaterial_exec (p : MeshPhongMaterial F) (v : Viewer F) :
  newMaterial p v =
  ({| mat_id := next_id v; mat_params := p |},
   with_next_id (S (next_id v))
     (with_random_pos
        (random_pos v + constructorDraws MeshPhongMaterialClass) v)).
Proof. reflexivity. Qed.

Ltac run_new :=
  rewrite exec_bind;
  first [rewrite newGeometry_exec | rewrite newMaterial_exec];
  cbn [fst snd].

Lemma dnaSegment_exec material baseMaterial radius height segmentHeight
    numSegments i (v : Viewer F) ch :
  sceneRef v = Some ch ->
  exec (dnaSegment material baseMaterial radius height segmentHeight
                   numSegments i) v =
  with_random_pos (random_pos v + dnaSegmentDraws numSegments i)
    (with_next_id (next_id v + (if (i <? numSegments)%nat then 2 else 1))
       (with_scene
          (Some (ch ++ dnaSegmentNodes material baseMaterial radius height
                         segmentHeight numSegments (next_id v) i)) v)).
Proof.
  intros E. unfold dnaSegment, dnaSegmentNodes, dnaSegmentDraws.
  run_new.
  rewrite exec_seq, construct_exec.
  rewrite exec_seq. erewrite sceneAdd_exec by exact E.
  rewrite exec_seq, construct_exec.
  rewrite exec_seq. erewrite sceneAdd_exec by reflexivity.
  destruct (i <? numSegments)%nat.
  - run_new.
    rewrite exec_seq, construct_exec.
    erewrite sceneAdd_exec by reflexivity.
    viewer_fields; [ | lia | simpl; lia ]. now rewrite <- !app_assoc.
  - rewrite exec_ret. viewer_fields; [ | lia | simpl; lia ].
    now rewrite <- !app_assoc.
Qed.

Lemma dnaSegmentId_step numSegments b i :
  (i <= numSegments)%nat ->
  (dnaSegmentId numSegments b i + (if (i <? numSegments)%nat then 2 else 1)
   = dnaSegmentId numSegments b (S i))%nat.
Proof.
  unfold dnaSegmentId. intros L.
  destruct (Nat.ltb_spec i numSegments); lia.
Qed.

Lemma dnaLoop_exec material baseMaterial radius height segmentHeight
    numSegments b count :
  forall start (v : Viewer F) ch,
  sceneRef v = Some ch ->
  next_id v = dnaSegmentId numSegments b start ->
  (start + count <= S numSegments)%nat ->
  exec (forLoop count start
          (dnaSegment material baseMaterial radius height segmentHeight
                      numSegments)) v =
  with_random_pos
    (random_pos v
     + list_sum (map (dnaSegmentDraws numSegments) (seq start count)))
    (with_next_id (dnaSegmentId numSegments b (start + count))
       (with_scene
          (Some (ch ++ flat_map (fun i =>
                     dnaSegmentNodes material baseMaterial radius height
                       segmentHeight numSegments
                       (dnaSegmentId numSegments b i) i)
                   (seq start count))) v)).
Proof.
  induction count as [|count IH]; intros start v ch E N L.
  - simpl. rewrite exec_ret, !Nat.add_0_r.
    viewer_fields; [now rewrite app_nil_r | assumption].
  - simpl forLoop. rewrite exec_seq. erewrite dnaSegment_exec by exact E.
    erewrite IH; [ | reflexivity | | lia].
    + viewer_fields; [ | f_equal; lia | simpl; lia ].
      rewrite N. now rewrite <- app_assoc.
    + cbn [next_id with_next_id with_scene with_random_pos].
      rewrite N. apply dnaSegmentId_step. lia.
Qed.

Lemma dnaBranch_exec radius height numSegments (v : Viewer F) ch :
  sceneRef v = Some ch ->
  exec (dnaBranch radius height numSegments) v =
  with_random_pos (random_pos v + dnaDraws numSegments)
    (with_next_id (next_id v + (2 * numSegments + 5))
       (with_scene
          (Some (ch ++ dnaNodes radius height numSegments (next_id v))) v)).
Proof.
  intros E. unfold dnaBranch, dnaNodes, dnaDraws.
  run_new. run_new.
  rewrite exec_seq.
  erewrite dnaLoop_exec with (b := (next_id v + 2)%nat) (ch := ch);
    [ | exact E | unfold dnaSegmentId; simpl; lia | lia ].
  run_new. run_new.
  rewrite exec_seq, construct_exec.
  erewrite sceneAdd_exec by reflexivity.
  viewer_fields; [ | unfold dnaSegmentId; lia | simpl; lia ].
  rewrite <- app_assoc. do 3 f_equal.
  unfold dnaSegmentId.
  do 2 f_equal; f_equal; lia.
Qed.

Lemma Math_random_run (v : Viewer F) :
  Math_random v =
  (random_src v (random_pos v), with_random_pos (S (random_pos v)) v).
Proof. reflexivity. Qed.

Lemma organoidCell_exec cellsGeometry cellMaterial i (v : Viewer F) ch :
  sceneRef v = Some ch ->
  exec (organoidCell cellsGeometry cellMaterial i) v =
  with_random_pos (random_pos v + (constructorDraws MeshClass + 3))
    (with_scene
       (Some (ch ++ [cell cellsGeometry cellMaterial
                       (random_src v (cellDrawInLoop (random_pos v) 0 0))
                       (random_src v (cellDrawInLoop (random_pos v) 0 1))
                       (random_src v (cellDrawInLoop (random_pos v) 0 2))]))
       v).
Proof.
  intros E. unfold organoidCell, cellDrawInLoop.
  rewrite exec_seq, construct_exec.
  do 3 (rewrite exec_bind, Math_random_run; cbn [fst snd]).
  erewrite sceneAdd_exec by exact E.
  cbn [random_src random_pos with_random_pos].
  viewer_fields; [ | lia ].
  do 4 f_equal; f_equal; lia.
Qed.

Lemma organoidLoop_exec cellsGeometry cellMaterial rnd pos count :
  forall start (v : Viewer F) ch,
  sceneRef v = Some ch ->
  random_src v = rnd ->
  random_pos v = (pos + start * (constructorDraws MeshClass + 3))%nat ->
  exec (forLoop count start (organoidCell cellsGeometry cellMaterial)) v =
  with_random_pos (pos + (start + count) * (constructorDraws MeshClass + 3))
    (with_scene
       (Some (ch ++ map (fun i => cell cellsGeometry cellMaterial
                           (rnd (cellDrawInLoop pos i 0))
                           (rnd (cellDrawInLoop pos i 1))
                           (rnd (cellDrawInLoop pos i 2)))
                        (seq start count))) v).
Proof.
  induction count as [|count IH]; intros start v ch E R P.
  - simpl. rewrite exec_ret, Nat.add_0_r.
    viewer_fields; [now rewrite app_nil_r | assumption].
  - simpl forLoop. rewrite exec_seq. erewrite organoidCell_exec by exact E.
    erewrite IH; [ | reflexivity | exact R | ].
    + viewer_fields; [ | f_equal; lia ].
      rewrite R, P. rewrite <- app_assoc. do 2 f_equal.
      cbn [app seq map]. unfold cellDrawInLoop.
      f_equal. f_equal; f_equal; lia.
    + cbn [random_pos with_random_pos with_scene]. rewrite P. lia.
Qed.

Lemma organoidBranch_exec cellCount (v : Viewer F) ch :
  sceneRef v = Some ch ->
  exec (organoidBranch cellCount) v =
  with_random_pos
    (random_pos v
     + (organoidSetupDraws + cellCount * (constructorDraws MeshClass + 3)))
    (with_next_id (next_id v + 6)
       (with_scene
          (Some (ch ++ organoidNodes cellCount (next_id v)
                         (random_src v) (random_pos v))) v)).
Proof.
  intros E. unfold organoidBranch, organoidNodes, organoidCells.
  run_new. run_new.
  rewrite exec_seq, construct_exec.
  rewrite exec_seq. erewrite sceneAdd_exec by exact E.
  run_new. run_new.
  rewrite exec_seq, construct_exec.
  rewrite exec_seq. erewrite sceneAdd_exec by reflexivity.
  run_new. run_new.
  erewrite organoidLoop_exec
    with (pos := (random_pos v + organoidSetupDraws)%nat)
         (rnd := random_src v);
    [ | reflexivity | reflexivity
      | unfold organoidSetupDraws; simpl; lia ].
  viewer_fields; [ | lia | lia ].
  rewrite <- !app_assoc. simpl.
  replace (next_id v + 1)%nat with (S (next_id v)) by lia.
  replace (next_id v + 2)%nat with (S (S (next_id v))) by lia.
  replace (next_id v + 3)%nat with (S (S (S (next_id v)))) by lia.
  replace (next_id v + 4)%nat with (S (S (S (S (next_id v))))) by lia.
  replace (next_id v + 5)%nat with (S (S (S (S (S (next_id v)))))) by lia.
  reflexivity.
Qed.

(** The type effect on a mounted scene, in one step: the old children are
    disposed of and dropped, the lights are added again, the selected
    structure is built. *)
Lemma typeEffectWith_exec radius height numSegments cellCount type
    (v : Viewer F) ch :
  sceneRef v = Some ch ->
  exec (typeEffectWith radius height numSegments cellCount type) v =
  with_random_pos
    (random_pos v + (lightingDraws + builtDraws numSegments cellCount type))
    (with_next_id (next_id v + builtIds numSegments type)
       (with_dispose_log (dispose_log v ++ sceneResources ch)
          (with_scene
             (Some (lighting ++
                    builtNodes radius height numSegments cellCount type
                      (next_id v) (random_src v)
                      (random_pos v + lightingDraws))) v))).
Proof.
  intros E. unfold typeEffectWith, builtNodes, builtIds, builtDraws.
  rewrite exec_bind, get_run. cbn [fst snd]. rewrite E.
  rewrite !exec_seq. erewrite clearScene_exec by exact E.
  erewrite addLighting_exec by reflexivity.
  rewrite exec_bind, get_run. cbn [fst snd sceneRef with_scene with_random_pos].
  destruct (String.eqb type "dna").
  - erewrite dnaBranch_exec by reflexivity. viewer_fields; lia.
  - destruct (String.eqb type "organoid").
    + erewrite organoidBranch_exec by reflexivity. viewer_fields. lia.
    + rewrite exec_ret. viewer_fields; lia.
Qed.

(** Without a scene the type effect does nothing. *)
Lemma typeEffectWith_unmounted radius height numSegments cellCount type
    (v : Viewer F) :
  sceneRef v = None ->
  exec (typeEffectWith radius height numSegments cellCount type) v = v.
Proof.
  intros E. unfold typeEffectWith.
  rewrite exec_bind, get_run. cbn [fst snd]. rewrite E.
  rewrite exec_seq, exec_ret, exec_bind, get_run. cbn [fst snd].
  now rewrite E.
Qed.

Lemma mounted_scene (rnd : nat -> F) w h :
  sceneRef (mounted rnd w h) = Some lighting.
Proof. reflexivity. Qed.

(** The mount effect in one step. *)
Lemma mountEffect_exec (mount : MountNode) (v : Viewer F) :
  exec (mountEffect (Some mount)) v =
  with_random_pos (random_pos v + mountDraws)
    (with_scene (Some lighting)
       (with_renderer
          (Some {| width := clientWidth mount; height := clientHeight mount |})
          (with_camera
             (Some {| fov := lit 75;
                      aspect := (ofZ (clientWidth mount)
                                 / ofZ (clientHeight mount))%js;
                      near := lit 0.1; far := lit 1000;
                      camera_position := vec3 (lit 0) (lit 0) (lit 5) |})
             v))).
Proof.
  unfold mountEffect, mountDraws.
  rewrite !exec_seq, !construct_exec, !modify_exec.
  erewrite addLighting_exec by reflexivity.
  viewer_fields. lia.
Qed.

Lemma mountEffect_facts (mount : MountNode) (v : Viewer F) :
  isMounted (exec (mountEffect (Some mount)) v) = true /\
  refsSet (exec (mountEffect (Some mount)) v) = true /\
  next_id (exec (mountEffect (Some mount)) v) = next_id v /\
  dispose_log (exec (mountEffect (Some mount)) v) = dispose_log v.
Proof. rewrite mountEffect_exec. repeat split. Qed.

Lemma mounted_random (rnd : nat -> F) w h :
  random_src (mounted rnd w h) = rnd /\
  random_pos (mounted rnd w h) = mountDraws.
Proof.
  split; [reflexivity|].
  unfold mounted, mountEffect, mountDraws.
  rewrite !exec_seq, !construct_exec, !modify_exec.
  erewrite addLighting_exec by reflexivity.
  cbn [random_pos with_random_pos with_scene with_camera with_renderer
       initialViewer].
  lia.
Qed.

End Execution.

(** * The structures *)

Section Structures.
Context {F : Type} `{JsMath F} `{ThreeJs}.

Lemma sceneResources_app (l1 l2 : list (Object3D F)) :
  sceneResources (l1 ++ l2) = sceneResources l1 ++ sceneResources l2.
Proof. apply flat_map_app. Qed.

Lemma filter_flat_map A B (p : B -> bool) (f : A -> list B) (l : list A) :
  filter p (flat_map f l) = flat_map (fun x => filter p (f x)) l.
Proof.
  induction l as [|x l IH]; simpl; [reflexivity|].
  now rewrite filter_app, IH.
Qed.

(** *** The helix *)

(** Iterations [start .. start + count - 1] add two backbone cylinders
    each, and a base pair while [i < numSegments]. *)
Lemma dnaSegments_length material baseMaterial radius height segmentHeight
    numSegments (idOf : nat -> nat) count :
  forall start, (start + count <= S numSegments)%nat ->
  (List.length (flat_map (fun i =>
       dnaSegmentNodes (F:=F) material baseMaterial radius height
         segmentHeight numSegments (idOf i) i) (seq start count))
   + Nat.min start numSegments
   = 2 * count + Nat.min (start + count) numSegments)%nat.
Proof.
  induction count as [|count IH]; intros start L; simpl.
  - rewrite Nat.add_0_r. lia.
  - specialize (IH (S start)). rewrite length_app.
    destruct (Nat.ltb_spec start numSegments); simpl List.length; lia.
Qed.

Lemma dnaSegmentNodes_color c material baseMaterial radius height
    segmentHeight numSegments id i :
  countColor c (dnaSegmentNodes (F:=F) material baseMaterial radius height
                  segmentHeight numSegments id i)
  = ((if Z.eqb (color (mat_params material)) c then 2 else 0)
     + (if (i <? numSegments)%nat
        then if Z.eqb (color (mat_params baseMaterial)) c then 1 else 0
        else 0))%nat.
Proof.
  unfold countColor, dnaSegmentNodes.
  destruct (i <? numSegments)%nat; simpl;
    destruct (Z.eqb (color (mat_params material)) c),
             (Z.eqb (color (mat_params baseMaterial)) c); reflexivity.
Qed.

Lemma countColor_app c (l1 l2 : list (Object3D F)) :
  countColor c (l1 ++ l2) = (countColor c l1 + countColor c l2)%nat.
Proof. unfold countColor. now rewrite filter_app, length_app. Qed.

Lemma dnaSegments_color c material baseMaterial radius height segmentHeight
    numSegments (idOf : nat -> nat) (km kb : bool) count :
  Z.eqb (color (mat_params material)) c = km ->
  Z.eqb (color (mat_params baseMaterial)) c = kb ->
  forall start, (start + count <= S numSegments)%nat ->
  (countColor c (flat_map (fun i =>
       dnaSegmentNodes (F:=F) material baseMaterial radius height
         segmentHeight numSegments (idOf i) i) (seq start count))
   + (if kb then Nat.min start numSegments else 0)
   = (if km then 2 * count else 0)
     + (if kb then Nat.min (start + count) numSegments else 0))%nat.
Proof.
  intros Em Eb.
  induction count as [|count IH]; intros start L; cbn [seq flat_map].
  - rewrite Nat.add_0_r. unfold countColor; simpl.
    destruct km, kb; lia.
  - specialize (IH (S start)).
    rewrite countColor_app, dnaSegmentNodes_color, Em, Eb.
    destruct (Nat.ltb_spec start numSegments); destruct km, kb; lia.
Qed.

Lemma countColor_cons c (o : Object3D F) (l : list (Object3D F)) :
  countColor c (o :: l)
  = ((if hasColor c o then 1 else 0) + countColor c l)%nat.
Proof. unfold countColor; simpl. now destruct (hasColor c o). Qed.

Lemma dnaNodes_length radius height numSegments b :
  List.length (dnaNodes (F:=F) radius height numSegments b)
  = (3 * numSegments + 3)%nat.
Proof.
  unfold dnaNodes. rewrite length_app.
  pose proof (@dnaSegments_length
    {| mat_id := b; mat_params := backboneMaterial |}
    {| mat_id := S b; mat_params := purpleMaterial |}
    radius height (height / ofNat numSegments)%js numSegments
    (dnaSegmentId numSegments (b + 2)) (S numSegments) 0
    (Nat.le_refl _)) as E.
  cbn [List.length]. lia.
Qed.

Lemma dnaNodes_colors radius height numSegments b :
  countColor 0x007bff (dnaNodes (F:=F) radius height numSegments b)
    = (2 * (numSegments + 1))%nat /\
  countColor 0x800080 (dnaNodes (F:=F) radius height numSegments b)
    = numSegments /\
  countColor 0xffa500 (dnaNodes (F:=F) radius height numSegments b)
    = 1%nat.
Proof.
  unfold dnaNodes.
  repeat split.
  all: rewrite countColor_app, countColor_cons.
  - pose proof (@dnaSegments_color 0x007bff
      {| mat_id := b; mat_params := backboneMaterial |}
      {| mat_id := S b; mat_params := purpleMaterial |}
      radius height (height / ofNat numSegments)%js numSegments
      (dnaSegmentId numSegments (b + 2)) true false (S numSegments)
      eq_refl eq_refl 0 (Nat.le_refl _)) as E.
    cbv beta iota in E. change (countColor 0x007bff []) with 0%nat.
    change (hasColor 0x007bff (dnaCore _ _ height)) with false.
    cbv beta iota. lia.
  - pose proof (@dnaSegments_color 0x800080
      {| mat_id := b; mat_params := backboneMaterial |}
      {| mat_id := S b; mat_params := purpleMaterial |}
      radius height (height / ofNat numSegments)%js numSegments
      (dnaSegmentId numSegments (b + 2)) false true (S numSegments)
      eq_refl eq_refl 0 (Nat.le_refl _)) as E.
    cbv beta iota in E. change (countColor 0x800080 []) with 0%nat.
    change (hasColor 0x800080 (dnaCore _ _ height)) with false.
    cbv beta iota. lia.
  - pose proof (@dnaSegments_color 0xffa500
      {| mat_id := b; mat_params := backboneMaterial |}
      {| mat_id := S b; mat_params := purpleMaterial |}
      radius height (height / ofNat numSegments)%js numSegments
      (dnaSegmentId numSegments (b + 2)) false false (S numSegments)
      eq_refl eq_refl 0 (Nat.le_refl _)) as E.
    cbv beta iota in E. change (countColor 0xffa500 []) with 0%nat.
    change (hasColor 0xffa500 (dnaCore _ _ height)) with true.
    cbv beta iota. lia.
Qed.

Lemma freshMesh_intro lo hi (g : Geometry F) m p r :
  (lo <= geo_id g < hi)%nat -> (lo <= mat_id m < hi)%nat ->
  freshMesh lo hi (Mesh g (SingleMaterial m) p r).
Proof. intros; exists g, m, p, r; auto. Qed.

Lemma dnaNodes_fresh radius height numSegments b :
  Forall (freshMesh b (b + (2 * numSegments + 5)))
         (dnaNodes (F:=F) radius height numSegments b).
Proof.
  unfold dnaNodes. apply Forall_app; split.
  - apply Forall_flat_map, Forall_forall. intros i Hi.
    apply in_seq in Hi. unfold dnaSegmentNodes, dnaSegmentId.
    destruct (Nat.ltb_spec i numSegments);
      repeat constructor; apply freshMesh_intro; simpl; lia.
  - repeat constructor. apply freshMesh_intro; simpl; lia.
Qed.

Lemma map_flat_map_list A B C (g : B -> C) (f : A -> list B) (l : list A) :
  map g (flat_map f l) = flat_map (fun x => map g (f x)) l.
Proof.
  induction l as [|x l IH]; simpl; [reflexivity|].
  now rewrite map_app, IH.
Qed.

(** What the helix draws does not depend on the allocation counter. *)
Lemma dnaNodes_eraseIds radius height numSegments b b' :
  map (@eraseIds F) (dnaNodes radius height numSegments b)
  = map (@eraseIds F) (dnaNodes radius height numSegments b').
Proof.
  unfold dnaNodes. rewrite !map_app, !map_flat_map_list. f_equal.
  apply flat_map_ext. intros i. unfold dnaSegmentNodes.
  destruct (i <? numSegments)%nat; reflexivity.
Qed.

(** *** The organoid *)

Lemma organoidNodes_length cellCount b (rnd : nat -> F) pos :
  List.length (organoidNodes cellCount b rnd pos) = (cellCount + 2)%nat.
Proof.
  unfold organoidNodes, organoidCells.
  rewrite length_app, length_map, length_seq. simpl. lia.
Qed.

Lemma cells_color c cellsGeometry cellMaterial (u1 u2 u3 : nat -> F)
    (l : list nat) :
  countColor c (map (fun i => cell cellsGeometry cellMaterial
                                (u1 i) (u2 i) (u3 i)) l)
  = if Z.eqb (color (mat_params cellMaterial)) c then List.length l
    else 0%nat.
Proof.
  unfold countColor.
  induction l as [|i l IH]; simpl.
  - now destruct (Z.eqb _ c).
  - destruct (Z.eqb (color (mat_params cellMaterial)) c); simpl; auto.
Qed.

Lemma organoidCells_color c cellsGeometry cellMaterial
    (rnd : nat -> F) pos count :
  countColor c (organoidCells cellsGeometry cellMaterial rnd pos count)
  = if Z.eqb (color (mat_params cellMaterial)) c then count else 0%nat.
Proof.
  unfold organoidCells.
  rewrite (cells_color c cellsGeometry cellMaterial
             (fun i => rnd (cellDrawInLoop pos i 0))
             (fun i => rnd (cellDrawInLoop pos i 1))
             (fun i => rnd (cellDrawInLoop pos i 2))).
  now rewrite length_seq.
Qed.

Lemma organoidNodes_colors cellCount b (rnd : nat -> F) pos :
  countColor 0xff6347 (organoidNodes cellCount b rnd pos) = 1%nat /\
  countColor 0x4682b4 (organoidNodes cellCount b rnd pos) = 1%nat /\
  countColor 0x90ee90 (organoidNodes cellCount b rnd pos) = cellCount.
Proof.
  unfold organoidNodes. cbn [app].
  repeat split; rewrite !countColor_cons, organoidCells_color; reflexivity.
Qed.

Lemma organoidNodes_fresh cellCount b (rnd : nat -> F) pos :
  Forall (freshMesh b (b + 6)) (organoidNodes cellCount b rnd pos).
Proof.
  unfold organoidNodes, organoidCells. apply Forall_app; split.
  - repeat constructor; apply freshMesh_intro; simpl; lia.
  - apply Forall_map, Forall_forall. intros i _.
    apply freshMesh_intro; simpl; lia.
Qed.

(** *** Whatever is built *)

Lemma builtNodes_length radius height numSegments cellCount type b
    (rnd : nat -> F) pos :
  List.length (builtNodes radius height numSegments cellCount type b rnd pos)
  = nodesAllocated numSegments cellCount type.
Proof.
  unfold builtNodes, nodesAllocated.
  destruct (String.eqb type "dna"); [apply dnaNodes_length|].
  destruct (String.eqb type "organoid"); [apply organoidNodes_length|].
  reflexivity.
Qed.

Lemma builtNodes_fresh radius height numSegments cellCount type b
    (rnd : nat -> F) pos :
  Forall (freshMesh b (b + builtIds numSegments type))
    (builtNodes radius height numSegments cellCount type b rnd pos).
Proof.
  unfold builtNodes, builtIds.
  destruct (String.eqb type "dna"); [apply dnaNodes_fresh|].
  destruct (String.eqb type "organoid"); [apply organoidNodes_fresh|].
  constructor.
Qed.

Lemma freshMesh_isMesh lo hi (l : list (Object3D F)) :
  Forall (freshMesh lo hi) l -> filter (@isMesh F) l = l.
Proof.
  induction 1 as [|o l (g & m & p & r & -> & _) _ IH]; simpl;
    [reflexivity | now rewrite IH].
Qed.

Lemma freshMesh_no_lights lo hi (l : list (Object3D F)) :
  Forall (freshMesh lo hi) l ->
  filter (@isAmbientLight F) l = [] /\ filter (@isDirectionalLight F) l = [].
Proof.
  induction 1 as [|o l (g & m & p & r & -> & _) _ [IH1 IH2]]; simpl; auto.
Qed.

Lemma freshMesh_resources lo hi (l : list (Object3D F)) :
  Forall (freshMesh lo hi) l ->
  allocatedWithin lo hi l /\
  List.length (sceneResources l) = (2 * List.length l)%nat.
Proof.
  unfold allocatedWithin.
  induction 1 as [|o l (g & m & p & r & -> & Hg & Hm) _ [IH1 IH2]]; simpl.
  - split; [constructor | reflexivity].
  - split; [repeat (constructor; [assumption|]); exact IH1 | rewrite IH2; lia].
Qed.

End Structures.

(** * Switching the structure type *)

Section Switching.
Context {F : Type} `{JsMath F} `{ThreeJs}.

Lemma isMounted_scene (v : Viewer F) :
  isMounted v = true -> sceneRef v = Some (children v).
Proof.
  unfold isMounted, children. destruct (sceneRef v); [reflexivity|discriminate].
Qed.

Lemma switchTo_children type (v : Viewer F) :
  isMounted v = true ->
  children (switchTo type v)
  = lighting ++ builtNodes (lit 1) (lit 4) 30 50 type
                  (next_id v) (random_src v) (random_pos v + lightingDraws).
Proof.
  intros M. unfold switchTo, typeEffect.
  now erewrite typeEffectWith_exec by (apply isMounted_scene, M).
Qed.

Lemma switchTo_dispose_log type (v : Viewer F) :
  isMounted v = true ->
  dispose_log (switchTo type v)
  = dispose_log v ++ sceneResources (children v).
Proof.
  intros M. unfold switchTo, typeEffect.
  now erewrite typeEffectWith_exec by (apply isMounted_scene, M).
Qed.

Lemma switchTo_next_id type (v : Viewer F) :
  isMounted v = true ->
  next_id (switchTo type v) = (next_id v + builtIds 30 type)%nat.
Proof.
  intros M. unfold switchTo, typeEffect.
  now erewrite typeEffectWith_exec by (apply isMounted_scene, M).
Qed.

Lemma switchTo_random type (v : Viewer F) :
  isMounted v = true ->
  random_src (switchTo type v) = random_src v /\
  random_pos (switchTo type v) = (random_pos v + switchDraws type)%nat.
Proof.
  intros M. unfold switchTo, typeEffect.
  now erewrite typeEffectWith_exec by (apply isMounted_scene, M).
Qed.

Lemma switchTo_mounted type (v : Viewer F) :
  isMounted v = true -> isMounted (switchTo type v) = true.
Proof.
  intros M. unfold switchTo, typeEffect.
  now erewrite typeEffectWith_exec by (apply isMounted_scene, M).
Qed.

Lemma switches_mounted types : forall v : Viewer F,
  isMounted v = true -> isMounted (switches types v) = true.
Proof.
  induction types as [|t types IH]; intros v M; simpl; [assumption|].
  apply IH, switchTo_mounted, M.
Qed.

Lemma switches_random types : forall v : Viewer F,
  isMounted v = true ->
  random_src (switches types v) = random_src v /\
  random_pos (switches types v)
  = (random_pos v + list_sum (map switchDraws types))%nat.
Proof.
  induction types as [|t types IH]; intros v M.
  - simpl. split; [reflexivity | lia].
  - change (switches (t :: types) v) with (switches types (switchTo t v)).
    destruct (IH _ (switchTo_mounted t v M)) as [-> ->].
    destruct (switchTo_random t v M) as [-> ->].
    split; [reflexivity|].
    change (list_sum (map switchDraws (t :: types)))
      with (switchDraws t + list_sum (map switchDraws types))%nat.
    lia.
Qed.

Lemma two_switches_random t1 t2 (v : Viewer F) :
  isMounted v = true ->
  random_src (switchTo t2 (switchTo t1 v)) = random_src v /\
  random_pos (switchTo t2 (switchTo t1 v))
  = (random_pos v + switchDraws t1 + switchDraws t2)%nat.
Proof.
  intros M.
  destruct (switchTo_random t2 _ (switchTo_mounted t1 v M)) as [-> ->].
  destruct (switchTo_random t1 v M) as [-> ->].
  split; reflexivity.
Qed.

Lemma switches_snoc types type (v : Viewer F) :
  switches (types ++ [type]) v = switchTo type (switches types v).
Proof. unfold switches. now rewrite fold_left_app. Qed.

Lemma contentNodes_switchTo type (v : Viewer F) :
  isMounted v = true ->
  contentNodes (switchTo type v)
  = builtNodes (lit 1) (lit 4) 30 50 type
      (next_id v) (random_src v) (random_pos v + lightingDraws).
Proof.
  intros M. unfold contentNodes. rewrite switchTo_children by exact M.
  rewrite filter_app. simpl.
  eapply freshMesh_isMesh, builtNodes_fresh.
Qed.

Lemma addedNodes_app (c : M F unit) (v : Viewer F) ch added :
  sceneRef v = Some ch ->
  sceneRef (exec c v) = Some (ch ++ added) ->
  addedNodes c v = added.
Proof.
  intros E E'. unfold addedNodes, children. rewrite E, E'.
  rewrite skipn_app, skipn_all, Nat.sub_diag. reflexivity.
Qed.

Lemma addedNodes_dnaBranch radius height numSegments (v : Viewer F) :
  isMounted v = true ->
  addedNodes (dnaBranch radius height numSegments) v
  = dnaNodes radius height numSegments (next_id v).
Proof.
  intros M. apply isMounted_scene in M.
  eapply addedNodes_app; [exact M|].
  erewrite dnaBranch_exec by exact M. reflexivity.
Qed.

Lemma addedNodes_organoidBranch cellCount (v : Viewer F) :
  isMounted v = true ->
  addedNodes (organoidBranch cellCount) v
  = organoidNodes cellCount (next_id v) (random_src v) (random_pos v).
Proof.
  intros M. apply isMounted_scene in M.
  eapply addedNodes_app; [exact M|].
  erewrite organoidBranch_exec by exact M. reflexivity.
Qed.

(** ** The node counts of the builders *)

(** C2.  For every number of segments (at least one), on a mounted scene,
    the helix branch adds [2 * (numSegments + 1)] backbone cylinders,
    [numSegments] base pairs and one core, [3 * numSegments + 3] nodes in
    all; with the constants of the source (radius 1, height 4, 30
    segments) that is 93 nodes, and these are the content nodes of the
    scene after a switch to ["dna"]. *)
Theorem helix_node_count (radius height : F) (numSegments : nat)
    (v : Viewer F) :
  (1 <= numSegments)%nat ->
  isMounted v = true ->
  countColor 0x007bff (addedNodes (dnaBranch radius height numSegments) v)
    = (2 * (numSegments + 1))%nat /\
  countColor 0x800080 (addedNodes (dnaBranch radius height numSegments) v)
    = numSegments /\
  countColor 0xffa500 (addedNodes (dnaBranch radius height numSegments) v)
    = 1%nat /\
  List.length (addedNodes (dnaBranch radius height numSegments) v)
    = (3 * numSegments + 3)%nat /\
  List.length (addedNodes (dnaBranch (lit 1) (lit 4) 30) v) = 93%nat /\
  List.length (contentNodes (switchTo "dna" v)) = 93%nat.
Proof.
  intros _ M.
  rewrite !addedNodes_dnaBranch, contentNodes_switchTo by exact M.
  destruct (dnaNodes_colors radius height numSegments (next_id v))
    as (Eb & Ep & Ec).
  rewrite builtNodes_length, !dnaNodes_length.
  repeat (split; [assumption || reflexivity|]). reflexivity.
Qed.

(** C3.  For every cell count, on a mounted scene, the organoid branch adds
    one core sphere, one outer sphere and [cellCount] cells,
    [cellCount + 2] nodes in all; with the loop bound of the source (50)
    that is 52 nodes, and these are the content nodes of the scene after a
    switch to ["organoid"]. *)
Theorem organoid_node_count (cellCount : nat) (v : Viewer F) :
  isMounted v = true ->
  countColor 0xff6347 (addedNodes (organoidBranch cellCount) v) = 1%nat /\
  countColor 0x4682b4 (addedNodes (organoidBranch cellCount) v) = 1%nat /\
  countColor 0x90ee90 (addedNodes (organoidBranch cellCount) v)
    = cellCount /\
  List.length (addedNodes (organoidBranch cellCount) v)
    = (cellCount + 2)%nat /\
  List.length (addedNodes (organoidBranch 50) v) = 52%nat /\
  List.length (contentNodes (switchTo "organoid" v)) = 52%nat.
Proof.
  intros M.
  rewrite !addedNodes_organoidBranch, contentNodes_switchTo by exact M.
  destruct (organoidNodes_colors cellCount (next_id v) (random_src v)
              (random_pos v)) as (Ec & Eo & Ek).
  rewrite builtNodes_length, !organoidNodes_length.
  repeat (split; [assumption || reflexivity|]). reflexivity.
Qed.

(** ** What a switch leaves in the scene *)

Lemma builtNodes_dna radius height numSegments cellCount b
    (rnd : nat -> F) pos :
  builtNodes radius height numSegments cellCount "dna" b rnd pos
  = dnaNodes radius height numSegments b.
Proof. reflexivity. Qed.

Lemma builtNodes_organoid radius height numSegments cellCount b
    (rnd : nat -> F) pos :
  builtNodes radius height numSegments cellCount "organoid" b rnd pos
  = organoidNodes cellCount b rnd pos.
Proof. reflexivity. Qed.

Lemma children_lighting_content type (v : Viewer F) :
  isMounted v = true ->
  children (switchTo type v) = lighting ++ contentNodes (switchTo type v).
Proof.
  intros M. now rewrite contentNodes_switchTo, switchTo_children by exact M.
Qed.

Lemma wellAllocated_mounted (rnd : nat -> F) w h :
  wellAllocated (mounted rnd w h).
Proof. split; constructor. Qed.

Lemma switchTo_content_fresh type (v : Viewer F) :
  isMounted v = true ->
  Forall (freshMesh (next_id v) (next_id (switchTo type v)))
         (contentNodes (switchTo type v)).
Proof.
  intros M. rewrite contentNodes_switchTo, switchTo_next_id by exact M.
  apply builtNodes_fresh.
Qed.

Lemma switchTo_resources type (v : Viewer F) :
  isMounted v = true ->
  sceneResources (children (switchTo type v))
  = sceneResources (contentNodes (switchTo type v)).
Proof.
  intros M. rewrite (children_lighting_content _ _ M) at 1.
  now rewrite sceneResources_app.
Qed.

Lemma wellAllocated_switchTo type (v : Viewer F) :
  isMounted v = true -> wellAllocated v -> wellAllocated (switchTo type v).
Proof.
  intros M [Wl Wc].
  pose proof (switchTo_next_id type _ M) as N.
  split.
  - rewrite switchTo_dispose_log by exact M.
    apply Forall_app; split; eapply Forall_impl; try eassumption;
      simpl; intros; lia.
  - rewrite switchTo_resources by exact M.
    destruct (freshMesh_resources _ _ _ (switchTo_content_fresh type _ M))
      as [A _].
    eapply Forall_impl; [|exact A]. simpl; intros; lia.
Qed.

Lemma wellAllocated_switches types : forall v : Viewer F,
  isMounted v = true -> wellAllocated v -> wellAllocated (switches types v).
Proof.
  induction types as [|t types IH]; intros v M W; simpl; [assumption|].
  apply IH; [apply switchTo_mounted, M | apply wellAllocated_switchTo; auto].
Qed.

Lemma resource_of_child (o : Object3D F) id ch :
  In o ch -> In id (resourcesOf o) -> In id (sceneResources ch).
Proof. intros Ho Hid. apply in_flat_map. exists o; auto. Qed.

(** C9.  The mounted scene holds the two lights.  After every switch,
    whatever the type and whatever the switches before it, the scene holds
    exactly one ambient and one directional light, followed by the content
    nodes of the new structure, and no content node of the new scene was
    in the scene before the switch. *)
Theorem lighting_after_every_switch (rnd : nat -> F) (w h : Z)
    (types : list string) (type : string) :
  children (mounted rnd w h) = [ambientLight; directionalLight] /\
  List.length (filter (@isAmbientLight F)
     (children (switchTo type (switches types (mounted rnd w h))))) = 1%nat /\
  List.length (filter (@isDirectionalLight F)
     (children (switchTo type (switches types (mounted rnd w h))))) = 1%nat /\
  children (switchTo type (switches types (mounted rnd w h)))
  = [ambientLight; directionalLight]
    ++ contentNodes (switchTo type (switches types (mounted rnd w h))) /\
  (forall o,
     In o (contentNodes (switchTo type (switches types (mounted rnd w h)))) ->
     ~ In o (children (switches types (mounted rnd w h)))).
Proof.
  set (v := switches types (mounted rnd w h)).
  assert (M : isMounted v = true) by (apply switches_mounted; reflexivity).
  assert (W : wellAllocated v)
    by (apply wellAllocated_switches;
        [reflexivity | apply wellAllocated_mounted]).
  pose proof (switchTo_content_fresh type _ M) as Fr.
  destruct (freshMesh_no_lights _ _ _ Fr) as [Na Nd].
  rewrite (children_lighting_content type _ M), !filter_app, Na, Nd.
  split; [reflexivity|]. split; [reflexivity|]. split; [reflexivity|].
  split; [reflexivity|].
  intros o Ho Hold.
  rewrite Forall_forall in Fr.
  destruct (Fr o Ho) as (g & m & p & r & -> & Hg & _).
  destruct W as [_ Wc]. rewrite Forall_forall in Wc.
  specialize (Wc (geo_id g)
    (resource_of_child _ (geo_id g) _ Hold (or_introl eq_refl))).
  lia.
Qed.

(** C8.  A structure type that is neither ["dna"] nor ["organoid"] leaves
    a mounted scene with the two lights and no content node; the switch is
    a total function of the state, it has no failing case. *)
Theorem unrecognized_type_is_empty (type : string) (v : Viewer F) :
  isMounted v = true ->
  String.eqb type "dna" = false ->
  String.eqb type "organoid" = false ->
  children (switchTo type v) = [ambientLight; directionalLight] /\
  contentNodes (switchTo type v) = [] /\
  isMounted (switchTo type v) = true.
Proof.
  intros M Ed Eo.
  rewrite contentNodes_switchTo, switchTo_children by exact M.
  unfold builtNodes. rewrite Ed, Eo.
  repeat split. apply switchTo_mounted, M.
Qed.

(** ** Rendering again *)

(** A render with the [type] of the last run of the effect changes
    nothing. *)
Lemma rerender_same type (u : Viewer F) :
  deps_type u = Some type -> exec (rerender type) u = u.
Proof.
  intros E. unfold rerender. rewrite exec_bind, get_run. cbn [fst snd].
  rewrite E, String.eqb_refl. reflexivity.
Qed.

(** ** Coordinates *)

Lemma coordinates_erased (ch : list (Object3D F)) :
  map (@transformOf F) (filter (@isMesh F) ch)
  = map (@transformOf F) (filter (@isMesh F) (map (@eraseIds F) ch)).
Proof.
  induction ch as [|[c i|c i p|g m p r] ch IH]; simpl; congruence.
Qed.

Lemma switchTo_dna_erased (v v' : Viewer F) :
  isMounted v = true -> isMounted v' = true ->
  map (@eraseIds F) (children (switchTo "dna" v))
  = map (@eraseIds F) (children (switchTo "dna" v')).
Proof.
  intros M M'. rewrite !switchTo_children, !builtNodes_dna by assumption.
  rewrite !map_app. apply f_equal, dnaNodes_eraseIds.
Qed.

Lemma switchTo_dna_coordinates (v v' : Viewer F) :
  isMounted v = true -> isMounted v' = true ->
  coordinates (switchTo "dna" v) = coordinates (switchTo "dna" v').
Proof.
  intros M M'. unfold coordinates, contentNodes.
  rewrite coordinates_erased, (switchTo_dna_erased _ _ M M').
  now rewrite <- coordinates_erased.
Qed.

Lemma switchTo_dna_colors (v : Viewer F) :
  isMounted v = true ->
  countColor 0xff6347 (children (switchTo "dna" v)) = 0%nat /\
  countColor 0x4682b4 (children (switchTo "dna" v)) = 0%nat /\
  countColor 0x90ee90 (children (switchTo "dna" v)) = 0%nat.
Proof.
  intros M. rewrite switchTo_children, builtNodes_dna by exact M.
  unfold dnaNodes. rewrite !countColor_app, !countColor_cons.
  pose proof (fun c km kb Em Eb => @dnaSegments_color F _ c
      {| mat_id := next_id v; mat_params := backboneMaterial |}
      {| mat_id := S (next_id v); mat_params := purpleMaterial |}
      (lit 1) (lit 4) (lit 4 / ofNat 30)%js 30
      (dnaSegmentId 30 (next_id v + 2)) km kb 31 Em Eb 0
      (Nat.le_refl _)) as E.
  repeat split.
  all: match goal with |- context [countColor ?c (flat_map _ _)] =>
         specialize (E c false false eq_refl eq_refl) end.
  all: cbv beta iota in E; rewrite Nat.add_0_r in E; rewrite E; reflexivity.
Qed.

(** C4.  From any mounted scene, ["dna"], then ["organoid"], then ["dna"]
    again gives the content of a single ["dna"] switch of any mounted
    scene: 93 content nodes (52 in between), the same positions and
    rotations node for node, the same nodes up to the identity of their
    resources, and no organoid core, outer layer or cell. *)
Theorem dna_organoid_dna_round_trip (v fresh : Viewer F) :
  isMounted v = true ->
  isMounted fresh = true ->
  List.length (contentNodes
     (switchTo "dna" (switchTo "organoid" (switchTo "dna" v))))
  = List.length (contentNodes (switchTo "dna" fresh)) /\
  List.length (contentNodes (switchTo "dna" v)) = 93%nat /\
  List.length (contentNodes (switchTo "organoid" (switchTo "dna" v)))
  = 52%nat /\
  List.length (contentNodes
     (switchTo "dna" (switchTo "organoid" (switchTo "dna" v)))) = 93%nat /\
  coordinates (switchTo "dna" (switchTo "organoid" (switchTo "dna" v)))
  = coordinates (switchTo "dna" fresh) /\
  map (@eraseIds F)
    (children (switchTo "dna" (switchTo "organoid" (switchTo "dna" v))))
  = map (@eraseIds F) (children (switchTo "dna" fresh)) /\
  countColor 0xff6347
    (children (switchTo "dna" (switchTo "organoid" (switchTo "dna" v))))
  = 0%nat /\
  countColor 0x4682b4
    (children (switchTo "dna" (switchTo "organoid" (switchTo "dna" v))))
  = 0%nat /\
  cellNodes (switchTo "dna" (switchTo "organoid" (switchTo "dna" v))) = [].
Proof.
  intros M Mf.
  assert (M1 : isMounted (switchTo "dna" v) = true)
    by apply switchTo_mounted, M.
  assert (M2 : isMounted (switchTo "organoid" (switchTo "dna" v)) = true)
    by apply switchTo_mounted, M1.
  destruct (switchTo_dna_colors _ M2) as (Ct & Cs & Cg).
  rewrite !contentNodes_switchTo, !builtNodes_length by assumption.
  repeat (split; [reflexivity|]).
  split; [apply switchTo_dna_coordinates; assumption|].
  split; [apply switchTo_dna_erased; assumption|].
  repeat (split; [assumption|]).
  unfold cellNodes. unfold countColor in Cg.
  now apply length_zero_iff_nil.
Qed.

(** C5.  ["dna"] twice in a row on a mounted scene leaves as many nodes as
    ["dna"] once (93 content nodes, at the same coordinates): the second
    switch removes and disposes of everything the first one built.  Under
    React the second render with the same [type] does not even run the
    effect. *)
Theorem dna_twice_same_count (v : Viewer F) (rnd : nat -> F)
    (mount : MountNode) :
  isMounted v = true ->
  List.length (contentNodes (switchTo "dna" (switchTo "dna" v)))
  = List.length (contentNodes (switchTo "dna" v)) /\
  List.length (children (switchTo "dna" (switchTo "dna" v)))
  = List.length (children (switchTo "dna" v)) /\
  List.length (contentNodes (switchTo "dna" (switchTo "dna" v))) = 93%nat /\
  coordinates (switchTo "dna" (switchTo "dna" v))
  = coordinates (switchTo "dna" v) /\
  incl (sceneResources (children (switchTo "dna" v)))
       (dispose_log (switchTo "dna" (switchTo "dna" v))) /\
  exec (rerender "dna")
       (exec (firstRender (Some mount) "dna") (initialViewer rnd))
  = exec (firstRender (Some mount) "dna") (initialViewer rnd).
Proof.
  intros M.
  assert (M1 : isMounted (switchTo "dna" v) = true)
    by apply switchTo_mounted, M.
  rewrite !children_lighting_content, !length_app by assumption.
  rewrite !contentNodes_switchTo, !builtNodes_length by assumption.
  repeat (split; [reflexivity|]).
  split; [apply switchTo_dna_coordinates; assumption|].
  split.
  - rewrite (switchTo_dispose_log "dna" _ M1).
    rewrite children_lighting_content by exact M.
    rewrite contentNodes_switchTo by exact M.
    apply incl_appr, incl_refl.
  - apply rerender_same. unfold firstRender.
    now rewrite !exec_seq, modify_exec.
Qed.

End Switching.

(** * Accounting for the disposals *)

Section Accounting.
Context {F : Type} `{JsMath F} `{ThreeJs}.

Lemma disposeCount_switchTo id type (v : Viewer F) :
  isMounted v = true ->
  disposeCount id (switchTo type v)
  = (disposeCount id v + holders id (children v))%nat.
Proof.
  intros M. unfold disposeCount, holders.
  now rewrite switchTo_dispose_log, count_occ_app by exact M.
Qed.

Lemma switchTo_resources_length type (v : Viewer F) :
  isMounted v = true ->
  List.length (sceneResources (children (switchTo type v)))
  = (2 * nodesAllocated 30 50 type)%nat.
Proof.
  intros M. rewrite switchTo_resources by exact M.
  destruct (freshMesh_resources _ _ _ (switchTo_content_fresh type _ M))
    as [_ L].
  now rewrite L, contentNodes_switchTo, builtNodes_length by exact M.
Qed.

Lemma totalNodesAllocated_cons t types :
  totalNodesAllocated (t :: types)
  = (nodesAllocated 30 50 t + totalNodesAllocated types)%nat.
Proof. reflexivity. Qed.

(** The log grows, switch after switch, by two calls for every node of the
    scene the switch removes. *)
Lemma dispose_log_length types : forall v : Viewer F,
  isMounted v = true ->
  List.length (dispose_log (switches types v))
  = (List.length (dispose_log v)
     + match types with
       | [] => 0
       | _ :: _ => List.length (sceneResources (children v))
                   + 2 * totalNodesAllocated (removelast types)
       end)%nat.
Proof.
  induction types as [|t types IH]; intros v M.
  - simpl. lia.
  - change (switches (t :: types) v) with (switches types (switchTo t v)).
    rewrite IH by (apply switchTo_mounted, M).
    rewrite switchTo_dispose_log, length_app by exact M.
    destruct types as [|t' types].
    + simpl. lia.
    + rewrite switchTo_resources_length by exact M.
      change (removelast (t :: t' :: types))
        with (t :: removelast (t' :: types)).
      rewrite totalNodesAllocated_cons. lia.
Qed.

Lemma dispose_log_length_mounted (rnd : nat -> F) w h types :
  List.length (dispose_log (switches types (mounted rnd w h)))
  = (2 * totalNodesAllocated (removelast types))%nat.
Proof.
  rewrite dispose_log_length by reflexivity.
  change (dispose_log (mounted rnd w h)) with (@nil nat).
  change (sceneResources (children (mounted rnd w h))) with (@nil nat).
  destruct types; simpl; lia.
Qed.

Lemma disposeCount_NoDup id (v : Viewer F) :
  NoDup (dispose_log v) -> (disposeCount id v <= 1)%nat.
Proof. intros N. apply NoDup_count_occ, N. Qed.

Lemma not_held_above id (ch : list (Object3D F)) lo hi :
  allocatedWithin lo hi ch -> (id < lo)%nat -> holders id ch = 0%nat.
Proof.
  unfold allocatedWithin, holders. intros A L.
  apply count_occ_not_In. intros I.
  rewrite Forall_forall in A. specialize (A id I). lia.
Qed.

(** A resource older than the scene is not touched by later switches. *)
Lemma disposeCount_stable id types : forall v : Viewer F,
  isMounted v = true ->
  holders id (children v) = 0%nat ->
  (id < next_id v)%nat ->
  disposeCount id (switches types v) = disposeCount id v.
Proof.
  induction types as [|t types IH]; intros v M Hh Hn; [reflexivity|].
  change (switches (t :: types) v) with (switches types (switchTo t v)).
  rewrite IH.
  - rewrite disposeCount_switchTo by exact M. lia.
  - apply switchTo_mounted, M.
  - destruct (freshMesh_resources _ _ _ (switchTo_content_fresh t _ M))
      as [A _].
    unfold holders. rewrite switchTo_resources by exact M.
    exact (not_held_above id _ _ _ A Hn).
  - rewrite switchTo_next_id by exact M. lia.
Qed.

(** C1, as the code has it.  A switch calls [dispose()], node after node
    of the scene it removes, on the geometry of the node and on its
    material (on every element of an array of materials).  Take any
    sequence of switches on a mounted viewer.  The number of [dispose()]
    calls is twice the number of content nodes allocated by all the
    switches but the last.  A resource of the scene left by a switch
    receives no call while that scene is current and, once a later switch
    has removed the scene, exactly one call per node that held it, and
    never another. *)
Theorem dispose_once_per_holder (rnd : nat -> F) (w h : Z)
    (before : list string) (type : string) (after : list string)
    (id : nat) (u : Viewer F) :
  (isMounted u = true ->
   dispose_log (switchTo type u)
   = dispose_log u ++ flat_map resourcesOf (children u)) /\
  List.length (dispose_log (switches before (mounted rnd w h)))
  = (2 * totalNodesAllocated (removelast before))%nat /\
  (In id (sceneResources
            (children (switches (before ++ [type]) (mounted rnd w h)))) ->
   (1 <= holders id
           (children (switches (before ++ [type]) (mounted rnd w h))))%nat /\
   disposeCount id (switches (before ++ [type]) (mounted rnd w h)) = 0%nat /\
   disposeCount id
     (switches after (switches (before ++ [type]) (mounted rnd w h)))
   = match after with
     | [] => 0%nat
     | _ :: _ =>
         holders id
           (children (switches (before ++ [type]) (mounted rnd w h)))
     end).
Proof.
  split; [apply switchTo_dispose_log|].
  split.
  - apply dispose_log_length_mounted.
  - rewrite switches_snoc.
    set (v := switches before (mounted rnd w h)).
    assert (M : isMounted v = true) by (apply switches_mounted; reflexivity).
    assert (W : wellAllocated v)
      by (apply wellAllocated_switches;
          [reflexivity | apply wellAllocated_mounted]).
    assert (M1 : isMounted (switchTo type v) = true)
      by apply switchTo_mounted, M.
    intros I.
    destruct (freshMesh_resources _ _ _ (switchTo_content_fresh type _ M))
      as [A _].
    assert (Hid : (next_id v <= id < next_id (switchTo type v))%nat).
    { rewrite switchTo_resources in I by exact M.
      unfold allocatedWithin in A. rewrite Forall_forall in A.
      exact (A id I). }
    assert (Z0 : disposeCount id (switchTo type v) = 0%nat).
    { unfold disposeCount. apply count_occ_not_In. intros L.
      rewrite switchTo_dispose_log in L by exact M.
      destruct W as [Wl Wc]. rewrite Forall_forall in Wl, Wc.
      apply in_app_or in L. destruct L as [L|L];
        [specialize (Wl id L) | specialize (Wc id L)]; lia. }
    split; [|split].
    + unfold holders. now apply count_occ_In.
    + exact Z0.
    + destruct after as [|t after]; [exact Z0|].
      change (switches (t :: after) (switchTo type v))
        with (switches after (switchTo t (switchTo type v))).
      rewrite disposeCount_stable.
      * rewrite disposeCount_switchTo by exact M1. lia.
      * apply switchTo_mounted, M1.
      * destruct (freshMesh_resources _ _ _
                    (switchTo_content_fresh t _ M1)) as [A' _].
        unfold holders. rewrite switchTo_resources by exact M1.
        apply (not_held_above id _ _ _ A'). lia.
      * rewrite switchTo_next_id by exact M1. lia.
Qed.

(** The helix of the source: the backbone material, allocated first, is
    held by the 62 backbone cylinders. *)
Lemma backbone_material_holders (radius height : F) :
  holders 0 (lighting ++ dnaNodes radius height 30 0) = 62%nat.
Proof. vm_compute. reflexivity. Qed.

(** Each backbone geometry is held by the two cylinders of its
    iteration. *)
Lemma first_cylinder_geometry_holders (radius height : F) :
  holders 2 (lighting ++ dnaNodes radius height 30 0) = 2%nat.
Proof. vm_compute. reflexivity. Qed.

End Accounting.

(** * Random placement and resizing *)

Section Environment.
Context {F : Type} `{JsMath F} `{ThreeJs}.

Lemma cells_filter c cellsGeometry cellMaterial (rnd : nat -> F) pos count :
  Z.eqb (color (mat_params cellMaterial)) c = true ->
  filter (hasColor c) (organoidCells cellsGeometry cellMaterial rnd pos count)
  = organoidCells cellsGeometry cellMaterial rnd pos count.
Proof.
  intros E. apply forallb_filter_id, forallb_forall.
  intros o Ho. unfold organoidCells in Ho.
  apply in_map_iff in Ho. destruct Ho as (i & <- & _). exact E.
Qed.

Lemma cellNodes_organoidNodes cellCount b (rnd : nat -> F) pos :
  filter (hasColor 0x90ee90) (lighting ++ organoidNodes cellCount b rnd pos)
  = organoidCells
      {| geo_id := b + 4; geo_params := cellsParams |}
      {| mat_id := b + 5; mat_params := lightGreenMaterial |}
      rnd (pos + organoidSetupDraws) cellCount.
Proof.
  unfold organoidNodes. rewrite !filter_app.
  rewrite cells_filter by reflexivity. reflexivity.
Qed.

Lemma cellNodes_organoid (v : Viewer F) :
  isMounted v = true ->
  cellNodes (switchTo "organoid" v)
  = organoidCells
      {| geo_id := next_id v + 4; geo_params := cellsParams |}
      {| mat_id := next_id v + 5; mat_params := lightGreenMaterial |}
      (random_src v) (random_pos v + lightingDraws + organoidSetupDraws) 50.
Proof.
  intros M. unfold cellNodes.
  rewrite switchTo_children, builtNodes_organoid by exact M.
  apply cellNodes_organoidNodes.
Qed.

(** The coordinates of the cells are those of the draws, three per cell,
    taken from the global generator after the mesh of the cell is
    constructed. *)
Lemma cellCoordinates_organoid (v : Viewer F) :
  isMounted v = true ->
  cellCoordinates (switchTo "organoid" v)
  = map (fun i => Some (cellPosition
                          (random_src v (cellDraw (random_pos v) i 0))
                          (random_src v (cellDraw (random_pos v) i 1))
                          (random_src v (cellDraw (random_pos v) i 2))))
        (seq 0 50).
Proof.
  intros M. unfold cellCoordinates.
  rewrite cellNodes_organoid by exact M.
  unfold organoidCells. rewrite map_map. reflexivity.
Qed.

Lemma switchDraws_organoid :
  (150 <= switchDraws "organoid")%nat.
Proof.
  unfold switchDraws, builtDraws. cbn [String.eqb Ascii.eqb Bool.eqb].
  lia.
Qed.

(** C6, as the code has it.  The cells are a function of the values
    [Math.random()] returns to the 150 calls of the build, three per cell
    (for phi, theta and r, after the mesh of the cell is constructed): two
    builds whose calls are served the same values place the same 50 cells.
    There is no seed and no generator argument: the values come from the
    global generator where it stands, which the constructors of three.js
    draw from as well, and the build leaves it further on, by its own 150
    draws at least. *)
Theorem organoid_cells_follow_the_draws (v1 v2 : Viewer F) :
  isMounted v1 = true ->
  isMounted v2 = true ->
  (forall i j, (i < 50)%nat -> (j < 3)%nat ->
     random_src v1 (cellDraw (random_pos v1) i j)
     = random_src v2 (cellDraw (random_pos v2) i j)) ->
  cellCoordinates (switchTo "organoid" v1)
  = cellCoordinates (switchTo "organoid" v2) /\
  List.length (cellCoordinates (switchTo "organoid" v1)) = 50%nat /\
  random_src (switchTo "organoid" v1) = random_src v1 /\
  (random_pos v1 + 150 <= random_pos (switchTo "organoid" v1))%nat.
Proof.
  intros M1 M2 E.
  destruct (switchTo_random "organoid" _ M1) as [Rs Rp].
  rewrite !cellCoordinates_organoid by assumption.
  split; [|split; [|split]].
  - apply map_ext_in. intros i Hi. apply in_seq in Hi.
    rewrite !E by lia. reflexivity.
  - now rewrite length_map, length_seq.
  - exact Rs.
  - rewrite Rp. pose proof switchDraws_organoid. lia.
Qed.


End Environment.

(** * Over the real numbers *)

Section Reals.
Local Open Scope R_scope.

(** A cell is as far from the origin as its radial draw says. *)
Lemma cell_distance (u1 u2 u3 : R) :
  0 <= u3 ->
  distanceToOrigin (cellPosition u1 u2 u3) = u3 * (8 / 10).
Proof.
  intros P. unfold distanceToOrigin, cellPosition.
  cbn [vx vy vz js_mul Math_sin Math_cos Math_PI RMath lit].
  replace (Q2R 0.8) with (8 / 10) by (unfold Q2R; simpl; lra).
  set (r := u3 * (8 / 10)).
  set (theta := u2 * PI). set (phi := u1 * PI * Q2R 2).
  replace (r * sin theta * cos phi * (r * sin theta * cos phi)
           + r * sin theta * sin phi * (r * sin theta * sin phi)
           + r * cos theta * (r * cos theta))
    with (r * r * (Rsqr (sin theta) * (Rsqr (sin phi) + Rsqr (cos phi))
                   + Rsqr (cos theta)))
    by (unfold Rsqr; ring).
  rewrite sin2_cos2, Rmult_1_r, sin2_cos2, Rmult_1_r.
  apply sqrt_square. unfold r. lra.
Qed.




Lemma sample_mounted : isMounted sampleViewer = true.
Proof. reflexivity. Qed.

Lemma helix_node_count_witness :
  (1 <= 30)%nat /\ isMounted sampleViewer = true /\
  List.length (addedNodes (dnaBranch (lit 1) (lit 4) 30) sampleViewer)
  = (3 * 30 + 3)%nat.
Proof.
  assert (L : (1 <= 30)%nat) by lia.
  split; [exact L|]. split; [reflexivity|].
  exact (proj1 (proj2 (proj2 (proj2
           (helix_node_count (lit 1) (lit 4) 30 sampleViewer L eq_refl))))).
Defined.

Lemma organoid_node_count_witness :
  isMounted sampleViewer = true /\
  List.length (addedNodes (organoidBranch 50) sampleViewer) = (50 + 2)%nat.
Proof.
  split; [reflexivity|].
  exact (proj1 (proj2 (proj2 (proj2
           (organoid_node_count 50 sampleViewer eq_refl))))).
Defined.

Lemma unrecognized_type_is_empty_witness :
  isMounted sampleViewer = true /\
  String.eqb "protein" "dna" = false /\
  String.eqb "protein" "organoid" = false /\
  contentNodes (switchTo "protein" sampleViewer) = [].
Proof.
  split; [reflexivity|]. split; [reflexivity|]. split; [reflexivity|].
  exact (proj1 (proj2
           (unrecognized_type_is_empty "protein" sampleViewer
              eq_refl eq_refl eq_refl))).
Defined.

Lemma dna_organoid_dna_round_trip_witness :
  isMounted sampleViewer = true /\
  coordinates
    (switchTo "dna" (switchTo "organoid" (switchTo "dna" sampleViewer)))
  = coordinates (switchTo "dna" sampleViewer).
Proof.
  split; [reflexivity|].
  exact (proj1 (proj2 (proj2 (proj2 (proj2
           (dna_organoid_dna_round_trip sampleViewer sampleViewer
              eq_refl eq_refl)))))).
Defined.

Lemma dna_twice_same_count_witness :
  isMounted sampleViewer = true /\
  List.length (contentNodes (switchTo "dna" (switchTo "dna" sampleViewer)))
  = List.length (contentNodes (switchTo "dna" sampleViewer)).
Proof.
  split; [reflexivity|].
  exact (proj1 (dna_twice_same_count sampleViewer (fun _ => 0)
                  {| clientWidth := 800; clientHeight := 600 |} eq_refl)).
Defined.

Lemma sample_dna_children :
  children (switchTo "dna" sampleViewer)
  = lighting ++ dnaNodes (lit 1) (lit 4) 30 0.
Proof. now rewrite switchTo_children, builtNodes_dna by reflexivity. Qed.

Lemma sample_dispose_count id :
  disposeCount id (switches ["dna"; "organoid"]%string sampleViewer)
  = holders id (lighting ++ dnaNodes (F:=R) (lit 1) (lit 4) 30 0).
Proof.
  change (switches ["dna"; "organoid"]%string sampleViewer)
    with (switchTo "organoid" (switchTo "dna" sampleViewer)).
  rewrite disposeCount_switchTo
    by (apply switchTo_mounted; reflexivity).
  rewrite disposeCount_switchTo by reflexivity.
  rewrite sample_dna_children. reflexivity.
Qed.

Lemma sample_backbone_material_count :
  disposeCount 0 (switches ["dna"; "organoid"]%string sampleViewer) = 62%nat.
Proof. rewrite sample_dispose_count. apply backbone_material_holders. Qed.

(** C1 fails as stated.  After ["dna"] then ["organoid"] the material of
    the backbone, one object shared by the 62 backbone cylinders, has been
    disposed of 62 times, the geometry of the first two cylinders twice,
    and the log holds 186 calls for the 93 nodes (65 resources) the first
    switch allocated. *)
Lemma shared_resources_disposed_repeatedly :
  disposeCount 0 (switches ["dna"; "organoid"]%string sampleViewer) = 62%nat /\
  disposeCount 2 (switches ["dna"; "organoid"]%string sampleViewer) = 2%nat /\
  ~ NoDup (dispose_log (switches ["dna"; "organoid"]%string sampleViewer)) /\
  List.length (dispose_log (switches ["dna"; "organoid"]%string sampleViewer))
  = 186%nat /\
  totalNodesAllocated (removelast ["dna"; "organoid"]%string) = 93%nat /\
  totalResourcesAllocated (removelast ["dna"; "organoid"]%string) = 65%nat.
Proof.
  split; [exact sample_backbone_material_count|].
  split; [rewrite sample_dispose_count;
          apply first_cylinder_geometry_holders|].
  split.
  - intros N.
    pose proof (disposeCount_NoDup 0 _ N) as L.
    rewrite sample_backbone_material_count in L. lia.
  - split; [|split; reflexivity].
    unfold sampleViewer. rewrite dispose_log_length_mounted.
    reflexivity.
Qed.

Lemma dispose_once_per_holder_witness :
  isMounted sampleViewer = true /\
  dispose_log (switchTo "dna" sampleViewer)
  = dispose_log sampleViewer ++ flat_map resourcesOf (children sampleViewer) /\
  In 0%nat (sceneResources
              (children (switches ([] ++ ["dna"%string]) sampleViewer))) /\
  disposeCount 0
    (switches ["organoid"%string]
       (switches ([] ++ ["dna"%string]) sampleViewer))
  = holders 0 (children (switches ([] ++ ["dna"%string]) sampleViewer)).
Proof.
  assert (I : In 0%nat
    (sceneResources
       (children (switches ([] ++ ["dna"%string]) sampleViewer)))).
  { change (switches ([] ++ ["dna"%string]) sampleViewer)
      with (switchTo "dna" sampleViewer).
    rewrite sample_dna_children.
    apply (count_occ_In Nat.eq_dec).
    change (holders 0 (lighting ++ dnaNodes (F:=R) (lit 1) (lit 4) 30 0) > 0)%nat.
    rewrite backbone_material_holders. lia. }
  split; [reflexivity|].
  split; [exact (proj1 (dispose_once_per_holder (fun _ => 0) 800 600
                          [] "dna" ["organoid"%string] 0%nat sampleViewer)
                   eq_refl)|].
  split; [exact I|].
  apply (proj2 (proj2 (dispose_once_per_holder (fun _ => 0) 800 600
                  [] "dna" ["organoid"%string] 0%nat sampleViewer)) I).
Defined.

Lemma rising_inj (a b : R) :
  0 <= a -> 0 <= b -> a / (a + 1) = b / (b + 1) -> a = b.
Proof.
  intros Pa Pb E.
  apply (f_equal (fun x => x * ((a + 1) * (b + 1)))) in E.
  replace (a / (a + 1) * ((a + 1) * (b + 1))) with (a * (b + 1)) in E
    by (field; lra).
  replace (b / (b + 1) * ((a + 1) * (b + 1))) with (b * (a + 1)) in E
    by (field; lra).
  lra.
Qed.

Lemma risingDraws_inj (j k : nat) : risingDraws j = risingDraws k -> j = k.
Proof.
  unfold risingDraws. intros E.
  apply INR_eq, rising_inj; [apply pos_INR | apply pos_INR | exact E].
Qed.

Lemma risingDraws_unit : unitDraws risingDraws.
Proof.
  intros k. unfold risingDraws. pose proof (pos_INR k) as P.
  split.
  - apply Rmult_le_pos; [exact P|].
    apply Rlt_le, Rinv_0_lt_compat. lra.
  - apply (Rmult_lt_reg_r (INR k + 1)); [lra|].
    replace (INR k / (INR k + 1) * (INR k + 1)) with (INR k) by (field; lra).
    lra.
Qed.

(** Two builds whose first cells are served different radial draws place
    them at different distances from the origin. *)
Lemma first_cell_differs (v1 v2 : Viewer R) :
  isMounted v1 = true -> isMounted v2 = true ->
  0 <= random_src v1 (cellDraw (random_pos v1) 0 2) ->
  0 <= random_src v2 (cellDraw (random_pos v2) 0 2) ->
  random_src v1 (cellDraw (random_pos v1) 0 2)
  <> random_src v2 (cellDraw (random_pos v2) 0 2) ->
  cellCoordinates (switchTo "organoid" v1)
  <> cellCoordinates (switchTo "organoid" v2).
Proof.
  intros M1 M2 P1 P2 D E.
  rewrite !cellCoordinates_organoid in E by assumption.
  apply (f_equal (fun l => match hd None l with
                           | Some p => distanceToOrigin p
                           | None => 0
                           end)) in E.
  cbn [seq map hd] in E.
  rewrite !cell_distance in E by assumption.
  apply D. lra.
Qed.

(** C6 fails as stated.  With nothing but the build repeated, the second
    organoid of a run (["organoid"], ["dna"], ["organoid"]) is served
    later draws of the generator than the first and places its cells
    elsewhere. *)
Lemma organoid_builds_differ :
  cellCoordinates (switchTo "organoid" risingViewer)
  <> cellCoordinates
       (switchTo "organoid"
          (switchTo "dna" (switchTo "organoid" risingViewer))).
Proof.
  assert (M : isMounted risingViewer = true) by reflexivity.
  destruct (mounted_random risingDraws 800 600) as [Es0 Ep0].
  fold risingViewer in Es0, Ep0.
  destruct (two_switches_random "organoid" "dna" risingViewer M)
    as [Es1 Ep1].
  rewrite Es0 in Es1. rewrite Ep0 in Ep1.
  apply first_cell_differs.
  - exact M.
  - apply switchTo_mounted, switchTo_mounted, M.
  - rewrite Es0. apply risingDraws_unit.
  - rewrite Es1. apply risingDraws_unit.
  - rewrite Es0, Es1, Ep0, Ep1. intros E.
    apply risingDraws_inj in E. vm_compute in E. discriminate E.
Qed.

Lemma late_draws_agree (i j : nat) :
  (i < 50)%nat -> (j < 3)%nat ->
  random_src risingViewer (cellDraw (random_pos risingViewer) i j)
  = random_src lateRisingViewer (cellDraw (random_pos lateRisingViewer) i j).
Proof.
  intros _ _.
  destruct (mounted_random risingDraws 800 600) as [Es Ep].
  destruct (mounted_random lateRisingDraws 800 600) as [Es' Ep'].
  fold risingViewer in Es, Ep. fold lateRisingViewer in Es', Ep'.
  rewrite Es, Ep, Es', Ep'. unfold lateRisingDraws.
  replace (cellDraw mountDraws i j <? 100)%nat with false; [reflexivity|].
  symmetry. apply Nat.ltb_ge.
  unfold cellDraw, cellDrawInLoop, mountDraws, lightingDraws,
    organoidSetupDraws.
  cbn [constructorDraws threeJs]. lia.
Qed.

Lemma organoid_cells_follow_the_draws_witness :
  isMounted risingViewer = true /\
  isMounted lateRisingViewer = true /\
  cellCoordinates (switchTo "organoid" risingViewer)
  = cellCoordinates (switchTo "organoid" lateRisingViewer).
Proof.
  split; [reflexivity|]. split; [reflexivity|].
  exact (proj1 (organoid_cells_follow_the_draws risingViewer
                  lateRisingViewer eq_refl eq_refl late_draws_agree)).
Defined.




End Reals.

(** * How the operations of the viewer compose *)

Section Composition.
Context {F : Type} `{JsMath F} `{ThreeJs}.

Ltac same_viewer :=
  apply viewer_ext;
  cbn [sceneRef cameraRef rendererRef next_id dispose_log random_src
       random_pos deps_type with_scene with_camera with_renderer
       with_next_id with_dispose_log with_random_pos with_deps_type];
  try reflexivity.

Lemma onWindowResize_exec (v : Viewer F) (mount : MountNode) camera renderer :
  cameraRef v = Some camera ->
  rendererRef v = Some renderer ->
  exec (onWindowResize (Some mount)) v
  = with_renderer
      (Some {| width := clientWidth mount; height := clientHeight mount |})
      (with_camera
         (Some {| fov := fov camera;
                  aspect := (ofZ (clientWidth mount)
                             / ofZ (clientHeight mount))%js;
                  near := near camera; far := far camera;
                  camera_position := camera_position camera |}) v).
Proof.
  intros Ec Er. unfold onWindowResize.
  rewrite !exec_bind, !get_run. cbn [fst snd]. rewrite Ec, Er.
  now rewrite exec_seq, !modify_exec.
Qed.

Lemma onWindowResize_idle (v : Viewer F) (currentMount : option MountNode) :
  currentMount = None \/ cameraRef v = None \/ rendererRef v = None ->
  exec (onWindowResize currentMount) v = v.
Proof.
  intros E. unfold onWindowResize.
  rewrite !exec_bind, !get_run. cbn [fst snd].
  destruct currentMount as [m|], (cameraRef v) as [c|], (rendererRef v) as [r|];
    try reflexivity.
  destruct E as [E|[E|E]]; discriminate E.
Qed.

(** X1.  Of two resizes in a row only the second shows: the camera and the
    surface are as if the first had not happened (and a resize repeated
    changes nothing more). *)
Theorem resize_last_wins (v : Viewer F) (first second : MountNode) :
  exec (onWindowResize (Some second)) (exec (onWindowResize (Some first)) v)
  = exec (onWindowResize (Some second)) v.
Proof.
  destruct (cameraRef v) as [camera|] eqn:Ec;
    [destruct (rendererRef v) as [renderer|] eqn:Er|].
  - rewrite (onWindowResize_exec v first camera renderer Ec Er).
    erewrite onWindowResize_exec by reflexivity.
    rewrite (onWindowResize_exec v second camera renderer Ec Er).
    same_viewer.
  - rewrite (onWindowResize_idle v (Some first)) by auto. reflexivity.
  - rewrite (onWindowResize_idle v (Some first)) by auto. reflexivity.
Qed.

Lemma switchTo_exec type (v : Viewer F) :
  isMounted v = true ->
  switchTo type v
  = with_random_pos (random_pos v + switchDraws type)
      (with_next_id (next_id v + builtIds 30 type)
         (with_dispose_log (dispose_log v ++ sceneResources (children v))
            (with_scene
               (Some (lighting ++
                      builtNodes (lit 1) (lit 4) 30 50 type
                        (next_id v) (random_src v)
                        (random_pos v + lightingDraws))) v))).
Proof.
  intros M. unfold switchTo, typeEffect.
  apply typeEffectWith_exec, isMounted_scene, M.
Qed.

Lemma switchTo_unmounted type (v : Viewer F) :
  isMounted v = false -> switchTo type v = v.
Proof.
  intros M. unfold switchTo, typeEffect.
  apply typeEffectWith_unmounted. unfold isMounted in M.
  destruct (sceneRef v); [discriminate|reflexivity].
Qed.

(** The type effect reads the scene, the counters and the generator, and
    nothing else of the state. *)
Lemma switchTo_frame type (v w : Viewer F) :
  sceneRef w = sceneRef v -> next_id w = next_id v ->
  dispose_log w = dispose_log v -> random_src w = random_src v ->
  random_pos w = random_pos v ->
  sceneRef (switchTo type w) = sceneRef (switchTo type v) /\
  next_id (switchTo type w) = next_id (switchTo type v) /\
  dispose_log (switchTo type w) = dispose_log (switchTo type v) /\
  random_src (switchTo type w) = random_src (switchTo type v) /\
  random_pos (switchTo type w) = random_pos (switchTo type v) /\
  cameraRef (switchTo type w) = cameraRef w /\
  rendererRef (switchTo type w) = rendererRef w /\
  deps_type (switchTo type w) = deps_type w.
Proof.
  intros Es En El Er Ep.
  assert (Em : isMounted w = isMounted v) by (unfold isMounted; now rewrite Es).
  assert (Ec : children w = children v) by (unfold children; now rewrite Es).
  destruct (isMounted v) eqn:M.
  - rewrite (switchTo_exec type v M), (switchTo_exec type w Em).
    cbn [sceneRef cameraRef rendererRef next_id dispose_log random_src
         random_pos deps_type with_scene with_next_id with_dispose_log
         with_random_pos].
    rewrite Ec, En, El, Er, Ep. repeat split.
  - rewrite (switchTo_unmounted type v M), (switchTo_unmounted type w Em).
    repeat split; assumption.
Qed.

(** X2.  A resize and a switch of structure do not interfere: in either
    order they leave the same state. *)
Theorem resize_switch_commute (type : string) (v : Viewer F)
    (currentMount : option MountNode) :
  switchTo type (exec (onWindowResize currentMount) v)
  = exec (onWindowResize currentMount) (switchTo type v).
Proof.
  destruct (switchTo_frame type v v eq_refl eq_refl eq_refl eq_refl eq_refl)
    as (_ & _ & _ & _ & _ & Sc & Sr & _).
  destruct currentMount as [mount|];
    [|now rewrite !onWindowResize_idle by auto].
  destruct (cameraRef v) as [camera|] eqn:Ec;
    [destruct (rendererRef v) as [renderer|] eqn:Er|].
  - rewrite (onWindowResize_exec v mount camera renderer Ec Er).
    rewrite (onWindowResize_exec (switchTo type v) mount camera renderer)
      by congruence.
    match goal with |- switchTo type ?w = _ =>
      destruct (switchTo_frame type v w eq_refl eq_refl eq_refl eq_refl
                  eq_refl) as (A & B & C & D & E & G & I & J)
    end.
    apply viewer_ext; cbn [sceneRef cameraRef rendererRef next_id
      dispose_log random_src random_pos deps_type with_camera with_renderer];
      try assumption.
    destruct (switchTo_frame type v v eq_refl eq_refl eq_refl eq_refl eq_refl)
      as (_ & _ & _ & _ & _ & _ & _ & Dv).
    now rewrite J, Dv.
  - rewrite !onWindowResize_idle by (right; right; congruence). reflexivity.
  - rewrite !onWindowResize_idle by (right; left; congruence). reflexivity.
Qed.

Lemma switches_next_id types : forall v : Viewer F,
  isMounted v = true ->
  next_id (switches types v)
  = (next_id v + 65 * count_occ string_dec types "dna"%string
     + 6 * count_occ string_dec types "organoid"%string)%nat.
Proof.
  induction types as [|t types IH]; intros v M.
  - simpl. lia.
  - change (switches (t :: types) v) with (switches types (switchTo t v)).
    rewrite (IH (switchTo t v) (switchTo_mounted t v M)).
    rewrite (switchTo_next_id t v M).
    unfold builtIds. cbn [count_occ].
    destruct (string_dec t "dna"%string) as [->|Nd];
      [|destruct (string_dec t "organoid"%string) as [->|No]].
    + cbn. lia.
    + cbn. lia.
    + apply String.eqb_neq in Nd, No. rewrite Nd, No. lia.
Qed.

Lemma switchDraws_by_type (type : string) :
  switchDraws "dna"
  = (constructorDraws AmbientLightClass
     + constructorDraws DirectionalLightClass
     + 3 * constructorDraws MeshPhongMaterialClass
     + 61 * constructorDraws CylinderGeometryClass
     + constructorDraws SphereGeometryClass
     + 93 * constructorDraws MeshClass)%nat /\
  switchDraws "organoid"
  = (constructorDraws AmbientLightClass
     + constructorDraws DirectionalLightClass
     + 3 * constructorDraws MeshPhongMaterialClass
     + 3 * constructorDraws SphereGeometryClass
     + 52 * constructorDraws MeshClass + 150)%nat /\
  (String.eqb type "dna" = false -> String.eqb type "organoid" = false ->
   switchDraws type
   = (constructorDraws AmbientLightClass
      + constructorDraws DirectionalLightClass)%nat).
Proof.
  unfold switchDraws, builtDraws, lightingDraws.
  split; [|split].
  - unfold dnaDraws, dnaSegmentDraws.
    cbn [String.eqb Ascii.eqb Bool.eqb seq map list_sum fold_right
         Nat.ltb Nat.leb].
    lia.
  - unfold organoidSetupDraws. cbn [String.eqb Ascii.eqb Bool.eqb]. lia.
  - intros -> ->. lia.
Qed.

(** X3.  What a sequence of switches consumes on a mounted viewer.  Of the
    identities of resources: 65 for each ["dna"], 6 for each ["organoid"],
    none for another type.  Of the global generator: the draws of each
    switch, one switch after the other, the stream itself untouched.  The
    draws of a switch are those of the constructors of three.js it calls
    (the two lights of every switch; three materials, 61 cylinder
    geometries, one sphere geometry and 93 meshes of a helix; three
    materials, three sphere geometries and 52 meshes of an organoid) and,
    for an organoid, the 150 calls of the build itself. *)
Theorem switches_consumption (types : list string) (v : Viewer F) :
  isMounted v = true ->
  next_id (switches types v)
  = (next_id v + 65 * count_occ string_dec types "dna"%string
     + 6 * count_occ string_dec types "organoid"%string)%nat /\
  random_pos (switches types v)
  = (random_pos v + list_sum (map switchDraws types))%nat /\
  random_src (switches types v) = random_src v /\
  switchDraws "dna"
  = (constructorDraws AmbientLightClass
     + constructorDraws DirectionalLightClass
     + 3 * constructorDraws MeshPhongMaterialClass
     + 61 * constructorDraws CylinderGeometryClass
     + constructorDraws SphereGeometryClass
     + 93 * constructorDraws MeshClass)%nat /\
  switchDraws "organoid"
  = (constructorDraws AmbientLightClass
     + constructorDraws DirectionalLightClass
     + 3 * constructorDraws MeshPhongMaterialClass
     + 3 * constructorDraws SphereGeometryClass
     + 52 * constructorDraws MeshClass + 150)%nat /\
  (forall type,
     String.eqb type "dna" = false -> String.eqb type "organoid" = false ->
     switchDraws type
     = (constructorDraws AmbientLightClass
        + constructorDraws DirectionalLightClass)%nat).
Proof.
  intros M.
  destruct (switches_random types v M) as [Es Ep].
  destruct (switchDraws_by_type "dna") as (Dd & Do & _).
  split; [apply switches_next_id, M|].
  split; [exact Ep|]. split; [exact Es|].
  split; [exact Dd|]. split; [exact Do|].
  intros type. apply (switchDraws_by_type type).
Qed.

Lemma switchTo_with_deps type d (v : Viewer F) :
  switchTo type (with_deps_type d v) = with_deps_type d (switchTo type v).
Proof.
  destruct (switchTo_frame type v (with_deps_type d v)
              eq_refl eq_refl eq_refl eq_refl eq_refl)
    as (A & B & C & D & E & G & I & J).
  destruct (switchTo_frame type v v eq_refl eq_refl eq_refl eq_refl eq_refl)
    as (_ & _ & _ & _ & _ & Gv & Iv & _).
  apply viewer_ext; cbn [sceneRef cameraRef rendererRef next_id
    dispose_log random_src random_pos deps_type with_deps_type] in *;
    congruence.
Qed.

Lemma switches_with_deps types d : forall v : Viewer F,
  switches types (with_deps_type d v) = with_deps_type d (switches types v).
Proof.
  induction types as [|t types IH]; intros v; [reflexivity|].
  change (switches (t :: types) ?w) with (switches types (switchTo t w)).
  now rewrite switchTo_with_deps, IH.
Qed.

Lemma rerender_exec type last (v : Viewer F) :
  deps_type v = Some last ->
  exec (rerender type) v
  = if String.eqb last type then v
    else with_deps_type (Some type) (switchTo type v).
Proof.
  intros E. unfold rerender. rewrite exec_bind, get_run. cbn [fst snd].
  rewrite E. destruct (String.eqb last type); [reflexivity|].
  now rewrite exec_seq, modify_exec.
Qed.

Lemma with_deps_twice d d' (v : Viewer F) :
  with_deps_type d (with_deps_type d' v) = with_deps_type d v.
Proof. same_viewer. Qed.

Lemma last_cons (types : list string) : forall t d,
  List.last (t :: types) d = List.last types t.
Proof.
  induction types as [|s types IH]; intros t d; [reflexivity|].
  change (List.last (t :: s :: types) d) with (List.last (s :: types) d).
  now rewrite !IH.
Qed.

(** X4.  Renders run the type effect only when [type] changes: a sequence
    of renders leaves what the switches to the types that differ from
    their predecessor leave, and remembers the last type rendered. *)
Theorem renders_are_the_changes (types : list string) (last : string)
    (v : Viewer F) :
  deps_type v = Some last ->
  renders types v
  = with_deps_type (Some (List.last types last))
      (switches (changesOf last types) v).
Proof.
  revert last v. induction types as [|t types IH]; intros last v E.
  - simpl. destruct v; simpl in *; now subst.
  - change (renders (t :: types) v)
      with (renders types (exec (rerender t) v)).
    rewrite (rerender_exec t last v E). cbn [changesOf].
    destruct (String.eqb_spec last t) as [->|N].
    + rewrite (IH t v E). now rewrite last_cons.
    + rewrite (IH t (with_deps_type (Some t) (switchTo t v)) eq_refl).
      change (switches (t :: changesOf t types) v)
        with (switches (changesOf t types) (switchTo t v)).
      now rewrite switches_with_deps, with_deps_twice, last_cons.
Qed.

End Composition.

(** * The life of the page *)

Section PageLife.
Context {F : Type} `{JsMath F} `{ThreeJs}.

Lemma page_ext (p q : Page F) :
  viewer p = viewer q -> live p = live q ->
  cleanup_registered p = cleanup_registered q ->
  animationFrameIdRef p = animationFrameIdRef q ->
  raf_next p = raf_next q -> raf_pending p = raf_pending q ->
  render_calls p = render_calls q ->
  resize_listener p = resize_listener q ->
  canvas_attached p = canvas_attached q ->
  renderer_disposed p = renderer_disposed q ->
  controls_disposed p = controls_disposed q -> p = q.
Proof. destruct p, q; simpl; intros; subst; reflexivity. Qed.

Lemma traverseDispose_exec (objects : list (Object3D F)) : forall v,
  exec (traverseDispose objects) v
  = with_dispose_log (dispose_log v ++ sceneResources objects) v.
Proof.
  induction objects as [|o objects IH]; intros v.
  - simpl. rewrite exec_ret. apply viewer_ext; simpl; try reflexivity.
    now rewrite app_nil_r.
  - simpl traverseDispose. rewrite exec_seq, IH, disposeObject_exec.
    apply viewer_ext; simpl; try reflexivity.
    unfold sceneResources. simpl. now rewrite app_assoc.
Qed.

Lemma cleanup_viewer (p : Page F) :
  viewer (cleanup p)
  = with_dispose_log
      (dispose_log (viewer p) ++ sceneResources (children (viewer p)))
      (viewer p).
Proof.
  unfold cleanup. cbn [viewer].
  now rewrite exec_bind, get_run, traverseDispose_exec.
Qed.

(** ** The animation loop *)

Lemma refsSet_switchTo type (v : Viewer F) :
  refsSet v = true -> refsSet (switchTo type v) = true.
Proof.
  intros R.
  assert (M : isMounted v = true).
  { unfold refsSet in R. unfold isMounted.
    destruct (rendererRef v), (sceneRef v); try discriminate R; reflexivity. }
  pose proof (switchTo_mounted type v M) as M'.
  destruct (switchTo_frame type v v eq_refl eq_refl eq_refl eq_refl eq_refl)
    as (_ & _ & _ & _ & _ & Ec & Er & _).
  unfold refsSet in *. unfold isMounted in M'. rewrite Ec, Er.
  destruct (rendererRef v), (sceneRef (switchTo type v)), (sceneRef v),
    (cameraRef v); try discriminate; reflexivity.
Qed.

Lemma refsSet_rerender type (v : Viewer F) :
  refsSet v = true -> refsSet (exec (rerender type) v) = true.
Proof.
  intros R. unfold rerender. rewrite exec_bind, get_run. cbn [fst snd].
  destruct (deps_type v) as [t|]; [destruct (String.eqb t type)|];
    rewrite ?exec_ret, ?exec_seq, ?modify_exec; try assumption;
    apply (refsSet_switchTo type v R).
Qed.

Lemma refsSet_resize (v : Viewer F) mount :
  refsSet v = true -> refsSet (exec (onWindowResize (Some mount)) v) = true.
Proof.
  intros R. unfold refsSet in R.
  destruct (rendererRef v) as [r|] eqn:Er; [|discriminate].
  destruct (sceneRef v) as [s|] eqn:Es; [|discriminate].
  destruct (cameraRef v) as [c|] eqn:Ec; [|discriminate].
  rewrite (onWindowResize_exec v mount c r Ec Er).
  unfold refsSet. cbn [rendererRef sceneRef cameraRef with_renderer
                       with_camera]. now rewrite Es.
Qed.

Lemma refsSet_renders (v : Viewer F) (a b : nat) :
  refsSet v = true ->
  match rendererRef v, sceneRef v, cameraRef v with
  | Some _, Some _, Some _ => a
  | _, _, _ => b
  end = a.
Proof.
  unfold refsSet.
  destruct (rendererRef v), (sceneRef v), (cameraRef v);
    try discriminate; reflexivity.
Qed.

Lemma refsSet_with_deps d (v : Viewer F) :
  refsSet (with_deps_type d v) = refsSet v.
Proof. reflexivity. Qed.

Lemma frame_running k (p : Page F) : running k p -> running (S k) (frame p).
Proof.
  intros (R & L & C & A & N & P & Rc & Rl & Ca & Rd & Cd).
  unfold frame. rewrite P. cbn [fold_left]. unfold animate, running.
  cbn [viewer live cleanup_registered animationFrameIdRef raf_next
       raf_pending render_calls resize_listener canvas_attached
       renderer_disposed controls_disposed app].
  rewrite (refsSet_renders _ _ _ R), N, Rc.
  repeat split; assumption.
Qed.

Lemma handle_running k (p : Page F) (e : Event) :
  running k p ->
  running (if isFrame e then S k else k) (handle p e).
Proof.
  intros Rn. destruct e as [|type|w h]; cbn [isFrame handle].
  - apply frame_running, Rn.
  - destruct Rn as (R & L & C & A & N & P & Rc & Rl & Ca & Rd & Cd).
    rewrite L. unfold running, onViewer. cbn [viewer live
      cleanup_registered animationFrameIdRef raf_next raf_pending
      render_calls resize_listener canvas_attached renderer_disposed
      controls_disposed].
    repeat split; try assumption. apply refsSet_rerender, R.
  - destruct Rn as (R & L & C & A & N & P & Rc & Rl & Ca & Rd & Cd).
    rewrite Rl. unfold running, onViewer. cbn [viewer live
      cleanup_registered animationFrameIdRef raf_next raf_pending
      render_calls resize_listener canvas_attached renderer_disposed
      controls_disposed].
    repeat split; try assumption. apply refsSet_resize, R.
Qed.

Lemma handleAll_running events : forall k (p : Page F),
  running k p ->
  running (k + List.length (filter isFrame events)) (handleAll events p).
Proof.
  induction events as [|e events IH]; intros k p Rn.
  - simpl. now rewrite Nat.add_0_r.
  - change (handleAll (e :: events) p)
      with (handleAll events (handle p e)).
    pose proof (IH _ _ (handle_running k p e Rn)) as Rn'.
    cbn [filter]. destruct (isFrame e); cbn [List.length].
    + now rewrite Nat.add_succ_r.
    + exact Rn'.
Qed.

Lemma mountEffectPage_viewer mount (p : Page F) :
  viewer (mountEffectPage (Some mount) p)
  = exec (mountEffect (Some mount)) (viewer p).
Proof. reflexivity. Qed.

Lemma typeEffect_then_deps type (v : Viewer F) :
  exec (typeEffect type ;; modify (with_deps_type (Some type))) v
  = with_deps_type (Some type) (switchTo type v).
Proof. now rewrite exec_seq, modify_exec. Qed.

(** The mount effect starts the loop of a page that has none. *)
Lemma mountEffectPage_running mount (p : Page F) :
  live p = true -> raf_next p = 1%nat -> raf_pending p = [] ->
  render_calls p = 0%nat ->
  renderer_disposed p = false -> controls_disposed p = false ->
  running 1 (mountEffectPage (Some mount) p).
Proof.
  intros L N P Rc Rd Cd.
  destruct (mountEffect_facts mount (viewer p)) as (_ & R & _).
  unfold running, mountEffectPage, animate, onViewer.
  cbn [viewer live cleanup_registered animationFrameIdRef raf_next
       raf_pending render_calls resize_listener canvas_attached
       renderer_disposed controls_disposed].
  rewrite (refsSet_renders _ _ _ R), R, L, N, P, Rc, Rd, Cd.
  repeat split.
Qed.

Lemma onViewer_running k (c : M F unit) (p : Page F) :
  running k p -> refsSet (exec c (viewer p)) = true ->
  running k (onViewer c p).
Proof.
  intros (R & L & C & A & N & P & Rc & Rl & Ca & Rd & Cd) R'.
  unfold running, onViewer.
  cbn [viewer live cleanup_registered animationFrameIdRef raf_next
       raf_pending render_calls resize_listener canvas_attached
       renderer_disposed controls_disposed].
  repeat split; assumption.
Qed.

Lemma firstRender_running (rnd : nat -> F) mount type :
  running 1 (pageFirstRender (Some mount) type (initialPage rnd)).
Proof.
  unfold pageFirstRender.
  assert (Rn : running 1 (mountEffectPage (Some mount)
                            (set_live true (initialPage rnd))))
    by (apply mountEffectPage_running; reflexivity).
  apply onViewer_running; [exact Rn|].
  rewrite typeEffect_then_deps, refsSet_with_deps.
  apply refsSet_switchTo, Rn.
Qed.

(** X5.  Once the component is mounted in a node, whatever frames, clicks
    and window resizes follow, exactly one [animate] callback is pending,
    its handle is the one kept in [animationFrameIdRef], and the scene has
    been rendered once at mount and once per frame. *)
Theorem one_frame_pending (rnd : nat -> F) (mount : MountNode)
    (type : string) (events : list Event) :
  raf_pending
    (handleAll events (pageFirstRender (Some mount) type (initialPage rnd)))
  = [1 + List.length (filter isFrame events)]%nat /\
  animationFrameIdRef
    (handleAll events (pageFirstRender (Some mount) type (initialPage rnd)))
  = Some (1 + List.length (filter isFrame events))%nat /\
  render_calls
    (handleAll events (pageFirstRender (Some mount) type (initialPage rnd)))
  = (1 + List.length (filter isFrame events))%nat.
Proof.
  destruct (handleAll_running events 1 _ (firstRender_running rnd mount type))
    as (_ & _ & _ & A & _ & P & Rc & _).
  auto.
Qed.

Lemma idle_page (p : Page F) (e : Event) :
  live p = false -> resize_listener p = false -> raf_pending p = [] ->
  handle p e = p.
Proof.
  intros L Rl P. destruct e; cbn [handle].
  - unfold frame. rewrite P. cbn [fold_left].
    apply page_ext; cbn; auto.
  - now rewrite L.
  - now rewrite Rl.
Qed.

Lemma idle_page_all events : forall p : Page F,
  live p = false -> resize_listener p = false -> raf_pending p = [] ->
  handleAll events p = p.
Proof.
  induction events as [|e events IH]; intros p L Rl P; [reflexivity|].
  change (handleAll (e :: events) p) with (handleAll events (handle p e)).
  rewrite (idle_page p e L Rl P). now apply IH.
Qed.

(** X6.  Unmounting a running page stops it for good: no callback is left
    pending, the resize listener and the canvas are removed, renderer and
    controls are disposed of, and no later frame, click or window resize
    changes anything: nothing is rendered after the unmount. *)
Theorem unmount_stops_the_page (rnd : nat -> F) (mount : MountNode)
    (type : string) (events later : list Event) :
  raf_pending (unmount
    (handleAll events (pageFirstRender (Some mount) type (initialPage rnd))))
  = [] /\
  resize_listener (unmount
    (handleAll events (pageFirstRender (Some mount) type (initialPage rnd))))
  = false /\
  canvas_attached (unmount
    (handleAll events (pageFirstRender (Some mount) type (initialPage rnd))))
  = false /\
  renderer_disposed (unmount
    (handleAll events (pageFirstRender (Some mount) type (initialPage rnd))))
  = true /\
  controls_disposed (unmount
    (handleAll events (pageFirstRender (Some mount) type (initialPage rnd))))
  = true /\
  handleAll later (unmount
    (handleAll events (pageFirstRender (Some mount) type (initialPage rnd))))
  = unmount
    (handleAll events (pageFirstRender (Some mount) type (initialPage rnd))).
Proof.
  set (p := handleAll events _).
  destruct (handleAll_running events 1 _ (firstRender_running rnd mount type))
    as (_ & _ & C & A & _ & P & _). fold p in C, A, P.
  assert (E : raf_pending (unmount p) = []).
  { unfold unmount. rewrite C. unfold cleanup, set_live.
    cbn [raf_pending]. rewrite A, P. cbn. now rewrite Nat.eqb_refl. }
  assert (Rl : resize_listener (unmount p) = false)
    by (unfold unmount; now rewrite C).
  split; [exact E|]. split; [exact Rl|].
  split; [unfold unmount; now rewrite C|].
  split; [unfold unmount; now rewrite C|].
  split; [unfold unmount; now rewrite C|].
  apply idle_page_all; [reflexivity | exact Rl | exact E].
Qed.

(** ** Nothing allocated is left undisposed *)

Lemma dnaSegments_cover material baseMaterial radius height segmentHeight
    numSegments b count :
  forall start id, (start + count <= S numSegments)%nat ->
  (dnaSegmentId numSegments b start <= id
   < dnaSegmentId numSegments b (start + count))%nat ->
  In id (sceneResources (flat_map (fun i =>
       dnaSegmentNodes (F:=F) material baseMaterial radius height
         segmentHeight numSegments (dnaSegmentId numSegments b i) i)
     (seq start count))).
Proof.
  induction count as [|count IH]; intros start id L R.
  - rewrite Nat.add_0_r in R. lia.
  - cbn [seq flat_map]. rewrite sceneResources_app. apply in_or_app.
    destruct (Nat.lt_ge_cases id (dnaSegmentId numSegments b (S start)))
      as [Lt|Ge].
    + left. unfold dnaSegmentNodes, dnaSegmentId in *.
      destruct (Nat.ltb_spec start numSegments); simpl; lia.
    + right. apply IH; [lia|]. rewrite Nat.add_succ_l, <- Nat.add_succ_r.
      lia.
Qed.

Lemma dnaNodes_cover radius height numSegments b id :
  (1 <= numSegments)%nat ->
  (b <= id < b + (2 * numSegments + 5))%nat ->
  In id (sceneResources (dnaNodes (F:=F) radius height numSegments b)).
Proof.
  intros P R. unfold dnaNodes. rewrite sceneResources_app.
  apply in_or_app.
  destruct (Nat.lt_ge_cases id (b + 2)) as [Lt|Ge].
  - left. cbn [seq flat_map]. rewrite sceneResources_app.
    apply in_or_app. left. unfold dnaSegmentNodes.
    destruct (Nat.ltb_spec 0 numSegments); [|lia]. simpl. lia.
  - destruct (Nat.lt_ge_cases id (b + 2 * numSegments + 3)) as [Lt|Ge'].
    + left. apply dnaSegments_cover; [lia|]. unfold dnaSegmentId. lia.
    + right. simpl. lia.
Qed.

Lemma organoidNodes_cover cellCount b (rnd : nat -> F) pos id :
  (1 <= cellCount)%nat ->
  (b <= id < b + 6)%nat ->
  In id (sceneResources (organoidNodes cellCount b rnd pos)).
Proof.
  intros P R. unfold organoidNodes, organoidCells.
  destruct cellCount as [|c]; [lia|]. cbn [seq map].
  simpl. lia.
Qed.

Lemma builtNodes_cover type b (rnd : nat -> F) pos id :
  (b <= id < b + builtIds 30 type)%nat ->
  In id (sceneResources
           (builtNodes (lit 1) (lit 4) 30 50 type b rnd pos)).
Proof.
  unfold builtNodes, builtIds.
  destruct (String.eqb type "dna");
    [intros R; apply dnaNodes_cover; lia|].
  destruct (String.eqb type "organoid");
    [intros R; apply organoidNodes_cover; lia|].
  lia.
Qed.

Lemma accounted_switchTo type (v : Viewer F) :
  isMounted v = true -> accounted v -> accounted (switchTo type v).
Proof.
  intros M A id L.
  rewrite (switchTo_next_id type v M) in L.
  rewrite (switchTo_dispose_log type v M), (switchTo_children type v M).
  destruct (Nat.lt_ge_cases id (next_id v)) as [Lt|Ge].
  - left. apply in_or_app. destruct (A id Lt); auto.
  - right. rewrite sceneResources_app. apply in_or_app. right.
    apply builtNodes_cover. lia.
Qed.

Lemma accounted_same (v w : Viewer F) :
  sceneRef w = sceneRef v -> next_id w = next_id v ->
  dispose_log w = dispose_log v -> accounted v -> accounted w.
Proof.
  intros Es En El A id L. unfold children. rewrite Es, El.
  apply A. now rewrite <- En.
Qed.

Lemma resize_keeps (v : Viewer F) currentMount :
  sceneRef (exec (onWindowResize currentMount) v) = sceneRef v /\
  next_id (exec (onWindowResize currentMount) v) = next_id v /\
  dispose_log (exec (onWindowResize currentMount) v) = dispose_log v.
Proof.
  destruct currentMount as [mount|];
    [|now rewrite onWindowResize_idle by auto].
  destruct (cameraRef v) as [c|] eqn:Ec;
    [destruct (rendererRef v) as [r|] eqn:Er|].
  - rewrite (onWindowResize_exec v mount c r Ec Er). repeat split.
  - now rewrite onWindowResize_idle by auto.
  - now rewrite onWindowResize_idle by auto.
Qed.

Lemma isMounted_same (v w : Viewer F) :
  sceneRef w = sceneRef v -> isMounted w = isMounted v.
Proof. unfold isMounted. now intros ->. Qed.

Lemma switch_deps_keeps type (v : Viewer F) :
  isMounted v = true -> accounted v ->
  isMounted (with_deps_type (Some type) (switchTo type v)) = true /\
  accounted (with_deps_type (Some type) (switchTo type v)).
Proof.
  intros M A.
  split; [apply (switchTo_mounted type v M)|].
  apply (accounted_same (switchTo type v));
    [reflexivity | reflexivity | reflexivity |].
  apply accounted_switchTo; assumption.
Qed.

Lemma rerender_keeps type (v : Viewer F) :
  isMounted v = true -> accounted v ->
  isMounted (exec (rerender type) v) = true /\
  accounted (exec (rerender type) v).
Proof.
  intros M A. unfold rerender. rewrite exec_bind, get_run. cbn [fst snd].
  pose proof (switch_deps_keeps type v M A) as S.
  destruct (deps_type v) as [t|]; [destruct (String.eqb t type)|];
    rewrite ?exec_ret, ?exec_seq, ?modify_exec; auto.
Qed.

Lemma animate_all_viewer (pending : list nat) : forall q : Page F,
  viewer (fold_left (fun q _ => animate q) pending q) = viewer q.
Proof.
  induction pending as [|k pending IH]; intros q; [reflexivity|].
  cbn [fold_left]. now rewrite IH.
Qed.

Lemma frame_viewer (p : Page F) : viewer (frame p) = viewer p.
Proof. unfold frame. now rewrite animate_all_viewer. Qed.

Lemma handle_keeps (p : Page F) (e : Event) :
  isMounted (viewer p) = true -> accounted (viewer p) ->
  isMounted (viewer (handle p e)) = true /\ accounted (viewer (handle p e)).
Proof.
  intros M A. destruct e as [|type|w h]; cbn [handle].
  - now rewrite frame_viewer.
  - destruct (live p); [|auto]. cbn [onViewer viewer].
    now apply rerender_keeps.
  - destruct (resize_listener p); [|auto]. cbn [onViewer viewer].
    destruct (resize_keeps (viewer p)
                (Some {| clientWidth := w; clientHeight := h |}))
      as (Es & En & El).
    split; [now rewrite (isMounted_same _ _ Es)|].
    now apply (accounted_same (viewer p)).
Qed.

Lemma handleAll_keeps events : forall p : Page F,
  isMounted (viewer p) = true -> accounted (viewer p) ->
  isMounted (viewer (handleAll events p)) = true /\
  accounted (viewer (handleAll events p)).
Proof.
  induction events as [|e events IH]; intros p M A; [auto|].
  change (handleAll (e :: events) p) with (handleAll events (handle p e)).
  destruct (handle_keeps p e M A). now apply IH.
Qed.

Lemma firstRender_keeps (rnd : nat -> F) mount type :
  isMounted (viewer (pageFirstRender (Some mount) type (initialPage rnd)))
  = true /\
  accounted (viewer (pageFirstRender (Some mount) type (initialPage rnd))).
Proof.
  unfold pageFirstRender. cbn [onViewer viewer].
  rewrite typeEffect_then_deps, mountEffectPage_viewer.
  destruct (mountEffect_facts mount
              (viewer (set_live true (initialPage rnd)))) as (M & _ & N & _).
  apply switch_deps_keeps; [exact M|].
  intros id L. rewrite N in L. cbn in L. lia.
Qed.

(** X7.  From mount to unmount, whatever frames, clicks and window resizes
    come between, every geometry and every material the component has
    allocated has received [dispose()] at least once when the cleanup has
    run.  The cleanup, unlike a switch, leaves the nodes in the scene. *)
Theorem no_resource_left_undisposed (rnd : nat -> F) (mount : MountNode)
    (type : string) (events : list Event) :
  Forall (fun id =>
            1 <= disposeCount id (viewer (unmount
                   (handleAll events
                      (pageFirstRender (Some mount) type (initialPage rnd))))))%nat
         (seq 0 (next_id (viewer (unmount
                   (handleAll events
                      (pageFirstRender (Some mount) type (initialPage rnd))))))) /\
  children (viewer (unmount
              (handleAll events
                 (pageFirstRender (Some mount) type (initialPage rnd)))))
  = children (viewer
              (handleAll events
                 (pageFirstRender (Some mount) type (initialPage rnd)))).
Proof.
  set (p := handleAll events _).
  destruct (handleAll_running events 1 _ (firstRender_running rnd mount type))
    as (_ & _ & C & _). fold p in C.
  destruct (handleAll_keeps events _ (proj1 (firstRender_keeps rnd mount type))
              (proj2 (firstRender_keeps rnd mount type))) as [M A].
  fold p in M, A.
  assert (E : viewer (unmount p)
              = with_dispose_log
                  (dispose_log (viewer p)
                   ++ sceneResources (children (viewer p))) (viewer p)).
  { unfold unmount. rewrite C. unfold set_live. cbn [viewer].
    apply cleanup_viewer. }
  rewrite E. split; [|reflexivity].
  apply Forall_forall. intros id I. apply in_seq in I.
  cbn [next_id with_dispose_log] in I.
  unfold disposeCount. cbn [dispose_log with_dispose_log].
  apply (count_occ_In Nat.eq_dec). apply in_or_app.
  apply A. lia.
Qed.

(** ** Without a mount node *)




End PageLife.

(** * The DNA construct of the App *)

Section Construct.
Local Open Scope string_scope.
Local Open Scope list_scope.
Local Open Scope Z_scope.

Lemma remove_keeps_others (id0 : Z) (l : list App.DnaElement) :
  Forall (fun el => App.id el <> id0) l -> App.removeDnaElement id0 l = l.
Proof.
  intros A. unfold App.removeDnaElement.
  apply forallb_filter_id, forallb_forall. intros el I.
  rewrite Forall_forall in A. apply negb_true_iff, Z.eqb_neq, A, I.
Qed.

Lemma remove_app (id0 : Z) (l1 l2 : list App.DnaElement) :
  App.removeDnaElement id0 (l1 ++ l2)
  = App.removeDnaElement id0 l1 ++ App.removeDnaElement id0 l2.
Proof. apply filter_app. Qed.

Lemma remove_one_hit (id0 : Z) t n :
  App.removeDnaElement id0 [ {| App.id := id0; App.type := t; App.name := n |} ]
  = [].
Proof. unfold App.removeDnaElement. cbn. now rewrite Z.eqb_refl. Qed.

(** X9.  Adding an element and removing it by its identifier gives the
    construct back, when no other element carries that identifier. *)
Theorem add_then_remove (now : Z) (type : string)
    (dnaElements : list App.DnaElement) :
  Forall (fun el => App.id el <> now) dnaElements ->
  App.removeDnaElement now (App.addDnaElement now type dnaElements)
  = dnaElements.
Proof.
  intros A. unfold App.addDnaElement.
  rewrite remove_app, remove_one_hit, (remove_keeps_others _ _ A).
  apply app_nil_r.
Qed.

(** X10.  Two elements added at the same value of [Date.now()] share
    their identifier: removing one removes both. *)
Theorem same_millisecond_removed_together (now : Z) (type1 type2 : string)
    (dnaElements : list App.DnaElement) :
  App.removeDnaElement now
    (App.addDnaElement now type2 (App.addDnaElement now type1 dnaElements))
  = App.removeDnaElement now dnaElements.
Proof.
  unfold App.addDnaElement.
  rewrite !remove_app, !remove_one_hit. now rewrite !app_nil_r.
Qed.

Lemma increasing_inv (a : App.DnaElement) (l : list App.DnaElement) :
  App.increasingIds (a :: l) ->
  Forall (fun el => App.id a < App.id el) l /\ App.increasingIds l.
Proof.
  unfold App.increasingIds. cbn [map]. intros S.
  apply StronglySorted_inv in S. destruct S as [S A].
  split; [|exact S]. exact (proj1 (Forall_map _ _ _) A).
Qed.

Lemma increasing_remove (id0 : Z) (l : list App.DnaElement) :
  App.increasingIds l -> App.increasingIds (App.removeDnaElement id0 l).
Proof.
  induction l as [|a l IH]; intros S; [exact S|].
  destruct (increasing_inv a l S) as [A S'].
  unfold App.removeDnaElement. cbn [filter].
  destruct (negb (App.id a =? id0)); [|exact (IH S')].
  unfold App.increasingIds. cbn [map]. constructor; [exact (IH S')|].
  apply Forall_map, Forall_forall. intros el I.
  apply filter_In in I. rewrite Forall_forall in A. apply A, I.
Qed.

Lemma increasing_snoc (e : App.DnaElement) (l : list App.DnaElement) :
  App.increasingIds l -> Forall (fun el => App.id el < App.id e) l ->
  App.increasingIds (l ++ [e]).
Proof.
  induction l as [|a l IH]; intros S B.
  - unfold App.increasingIds. cbn. repeat constructor.
  - destruct (increasing_inv a l S) as [A S'].
    inversion B as [|? ? Ba Bl]; subst.
    unfold App.increasingIds. cbn [app map]. constructor.
    + exact (IH S' Bl).
    + rewrite map_app. apply Forall_app. split.
      * exact (proj2 (Forall_map _ _ _) A).
      * cbn. constructor; [exact Ba|constructor].
Qed.

Lemma increasing_add (now : Z) type (l : list App.DnaElement) :
  App.increasingIds l -> Forall (fun el => App.id el < now) l ->
  App.increasingIds (App.addDnaElement now type l).
Proof.
  intros S B. unfold App.addDnaElement. now apply increasing_snoc.
Qed.

Lemma increasing_remove_present (el : App.DnaElement)
    (l : list App.DnaElement) :
  App.increasingIds l -> In el l ->
  (S (List.length (App.removeDnaElement (App.id el) l)) = List.length l)%nat /\
  ~ In el (App.removeDnaElement (App.id el) l) /\
  (forall other, In other l -> App.id other <> App.id el ->
                 In other (App.removeDnaElement (App.id el) l)).
Proof.
  intros S I. split; [|split].
  - induction l as [|a l IH]; [destruct I|].
    destruct (increasing_inv a l S) as [A S'].
    unfold App.removeDnaElement. cbn [filter].
    destruct I as [->|I].
    + rewrite Z.eqb_refl. cbn [negb].
      fold (App.removeDnaElement (App.id el) l).
      rewrite remove_keeps_others; [reflexivity|].
      eapply Forall_impl; [|exact A]. cbn. intros; lia.
    + rewrite Forall_forall in A. specialize (A el I).
      replace (App.id a =? App.id el) with false
        by (symmetry; apply Z.eqb_neq; lia).
      cbn [negb List.length]. f_equal. exact (IH S' I).
  - intros J. apply filter_In in J. destruct J as [_ J].
    now rewrite Z.eqb_refl in J.
  - intros other J N. apply filter_In. split; [exact J|].
    now apply negb_true_iff, Z.eqb_neq.
Qed.

(** X11.  While every element is added at a later [Date.now()] than those
    present, the identifiers increase along the construct; additions and
    removals keep it so, and removing the identifier of a present element
    removes that element and no other. *)
Theorem increasing_ids_are_keys (dnaElements : list App.DnaElement)
    (now id0 : Z) (type : string) (el : App.DnaElement) :
  App.increasingIds dnaElements ->
  (Forall (fun e => App.id e < now) dnaElements ->
   App.increasingIds (App.addDnaElement now type dnaElements)) /\
  App.increasingIds (App.removeDnaElement id0 dnaElements) /\
  (In el dnaElements ->
   (S (List.length (App.removeDnaElement (App.id el) dnaElements))
    = List.length dnaElements)%nat /\
   ~ In el (App.removeDnaElement (App.id el) dnaElements) /\
   (forall other, In other dnaElements -> App.id other <> App.id el ->
      In other (App.removeDnaElement (App.id el) dnaElements))).
Proof.
  intros S. split; [apply increasing_add, S|].
  split; [apply increasing_remove, S|].
  apply increasing_remove_present, S.
Qed.

(** X12.  Names are numbered by the length of the construct at the time
    of the addition, so they repeat after a removal: add two elements of
    a type, remove the first, add a third, and the last two elements
    carry the same name. *)
Theorem names_repeat_after_removal (dnaElements : list App.DnaElement)
    (type : string) (first second third : Z) :
  Forall (fun el => App.id el <> first) dnaElements ->
  second <> first ->
  App.addDnaElement third type
    (App.removeDnaElement first
       (App.addDnaElement second type
          (App.addDnaElement first type dnaElements)))
  = dnaElements ++
    [ {| App.id := second; App.type := type;
         App.name := type ++ " "
           ++ App.numberToString (List.length dnaElements + 2) |};
      {| App.id := third; App.type := type;
         App.name := type ++ " "
           ++ App.numberToString (List.length dnaElements + 2) |} ].
Proof.
  intros A N. unfold App.addDnaElement at 2 3.
  rewrite !remove_app, remove_one_hit, (remove_keeps_others _ _ A).
  rewrite app_nil_r.
  assert (K : App.removeDnaElement first
                [ {| App.id := second; App.type := type;
                     App.name := type ++ " " ++ App.numberToString
                       (List.length (dnaElements ++
                          [ {| App.id := first; App.type := type;
                               App.name := type ++ " " ++ App.numberToString
                                 (List.length dnaElements + 1) |} ]) + 1) |} ]
              = [ {| App.id := second; App.type := type;
                     App.name := type ++ " " ++ App.numberToString
                       (List.length dnaElements + 2) |} ]).
  { unfold App.removeDnaElement. cbn [filter App.id].
    replace (second =? first) with false by (symmetry; now apply Z.eqb_neq).
    cbn [negb]. rewrite length_app. cbn [List.length].
    now replace (List.length dnaElements + 1 + 1)%nat
      with (List.length dnaElements + 2)%nat by lia. }
  rewrite K. unfold App.addDnaElement.
  rewrite <- app_assoc, length_app. cbn [List.length app].
  now replace (List.length dnaElements + 1 + 1)%nat
    with (List.length dnaElements + 2)%nat by lia.
Qed.

(** X13.  Removal by identifier: an identifier no element carries removes
    nothing; removing twice is removing once; two removals can be done
    in either order; the construct never grows. *)
Theorem removal_is_a_filter (id1 id2 : Z)
    (dnaElements : list App.DnaElement) :
  (Forall (fun el => App.id el <> id1) dnaElements ->
   App.removeDnaElement id1 dnaElements = dnaElements) /\
  App.removeDnaElement id1 (App.removeDnaElement id1 dnaElements)
  = App.removeDnaElement id1 dnaElements /\
  App.removeDnaElement id1 (App.removeDnaElement id2 dnaElements)
  = App.removeDnaElement id2 (App.removeDnaElement id1 dnaElements) /\
  (List.length (App.removeDnaElement id1 dnaElements)
   <= List.length dnaElements)%nat.
Proof.
  split; [apply remove_keeps_others|].
  split; [|split].
  - apply remove_keeps_others, Forall_forall. intros el I.
    apply filter_In in I. destruct I as [_ I].
    now apply negb_true_iff, Z.eqb_neq in I.
  - unfold App.removeDnaElement.
    induction dnaElements as [|a l IH]; [reflexivity|].
    cbn [filter].
    destruct (negb (App.id a =? id2)) eqn:E2,
             (negb (App.id a =? id1)) eqn:E1;
      cbn [filter]; rewrite ?E1, ?E2, IH; reflexivity.
  - unfold App.removeDnaElement.
    induction dnaElements as [|a l IH]; [apply Nat.le_refl|].
    cbn [filter]. destruct (negb (App.id a =? id1)); cbn [List.length]; lia.
Qed.


End Construct.

(** * The shape of the helix *)

Section HelixNodes.
Context {F : Type} `{JsMath F} `{ThreeJs}.

Lemma dnaSegmentNodes_length material baseMaterial radius height
    segmentHeight numSegments id i :
  List.length (dnaSegmentNodes (F:=F) material baseMaterial radius height
                 segmentHeight numSegments id i)
  = if (i <? numSegments)%nat then 3%nat else 2%nat.
Proof.
  unfold dnaSegmentNodes. now destruct (i <? numSegments)%nat.
Qed.

(** Node [3 * j + k] of the loop is node [k] of iteration [start + j],
    while the iterations before it have a base pair. *)
Lemma dnaSegments_nth material baseMaterial radius height segmentHeight
    numSegments (idOf : nat -> nat) j : forall start count k,
  (j < count)%nat -> (start + j <= numSegments)%nat ->
  (k < List.length (dnaSegmentNodes (F:=F) material baseMaterial radius
                      height segmentHeight numSegments
                      (idOf (start + j)%nat) (start + j)))%nat ->
  nth_error (flat_map (fun i =>
       dnaSegmentNodes material baseMaterial radius height
         segmentHeight numSegments (idOf i) i) (seq start count))
    (3 * j + k)
  = nth_error (dnaSegmentNodes material baseMaterial radius height
                 segmentHeight numSegments
                 (idOf (start + j)%nat) (start + j)) k.
Proof.
  induction j as [|j IH]; intros start count k Lc Ln Lk.
  - destruct count as [|count]; [lia|]. cbn [seq flat_map].
    rewrite Nat.add_0_r in *. cbn [Nat.mul Nat.add].
    now apply nth_error_app1.
  - destruct count as [|count]; [lia|]. cbn [seq flat_map].
    rewrite nth_error_app2;
      rewrite dnaSegmentNodes_length;
      destruct (Nat.ltb_spec start numSegments); try lia.
    replace (3 * S j + k - 3)%nat with (3 * j + k)%nat by lia.
    replace (start + S j)%nat with (S start + j)%nat in * by lia.
    apply IH; [lia | lia | exact Lk].
Qed.

Lemma dnaNodes_nth radius height numSegments b i k :
  (i <= numSegments)%nat ->
  (k < if (i <? numSegments)%nat then 3 else 2)%nat ->
  nth_error (dnaNodes (F:=F) radius height numSegments b) (3 * i + k)
  = nth_error
      (dnaSegmentNodes
         {| mat_id := b; mat_params := backboneMaterial |}
         {| mat_id := S b; mat_params := purpleMaterial |}
         radius height (height / ofNat numSegments)%js numSegments
         (dnaSegmentId numSegments (b + 2) i) i) k.
Proof.
  intros Li Lk. unfold dnaNodes.
  pose proof (@dnaSegments_length F _
    {| mat_id := b; mat_params := backboneMaterial |}
    {| mat_id := S b; mat_params := purpleMaterial |}
    radius height (height / ofNat numSegments)%js numSegments
    (dnaSegmentId numSegments (b + 2)) (S numSegments) 0
    (Nat.le_refl _)) as E.
  rewrite nth_error_app1.
  - rewrite (dnaSegments_nth _ _ _ _ _ _ (dnaSegmentId numSegments (b + 2))
               i 0 (S numSegments) k); [reflexivity | lia | lia |].
    now rewrite dnaSegmentNodes_length.
  - destruct (Nat.ltb_spec i numSegments); lia.
Qed.

Lemma dnaNodes_core radius height numSegments b :
  nth_error (dnaNodes (F:=F) radius height numSegments b)
            (3 * numSegments + 2)
  = Some (dnaCore {| geo_id := b + 2 * numSegments + 3;
                     geo_params := dnaCoreParams |}
                  {| mat_id := b + 2 * numSegments + 4;
                     mat_params := orangeMaterial |} height).
Proof.
  unfold dnaNodes.
  pose proof (@dnaSegments_length F _
    {| mat_id := b; mat_params := backboneMaterial |}
    {| mat_id := S b; mat_params := purpleMaterial |}
    radius height (height / ofNat numSegments)%js numSegments
    (dnaSegmentId numSegments (b + 2)) (S numSegments) 0
    (Nat.le_refl _)) as E.
  rewrite nth_error_app2 by lia.
  match goal with |- nth_error _ ?n = _ =>
    replace n with 0%nat by lia end.
  reflexivity.
Qed.

(** Where the helix branch puts its nodes: the two backbone cylinders of
    iteration [i] at indices [3 i] and [3 i + 1], its base pair at
    [3 i + 2], the core last. *)
Lemma helix_positions radius height numSegments (v : Viewer F) i :
  isMounted v = true -> (i <= numSegments)%nat ->
  nodePosition (addedNodes (dnaBranch radius height numSegments) v) (3 * i)
  = Some (vec3 (radius * Math_cos (angle1 numSegments i))
               (radius * Math_sin (angle1 numSegments i))
               (ofNat i * (height / ofNat numSegments) - height / lit 2))%js /\
  nodePosition (addedNodes (dnaBranch radius height numSegments) v)
               (3 * i + 1)
  = Some (vec3 (radius * Math_cos (angle1 numSegments i + Math_PI))
               (radius * Math_sin (angle1 numSegments i + Math_PI))
               (ofNat i * (height / ofNat numSegments) - height / lit 2))%js /\
  ((i < numSegments)%nat ->
   nodePosition (addedNodes (dnaBranch radius height numSegments) v)
                (3 * i + 2)
   = Some (vec3 (lit 0) (lit 0)
                ((ofNat i + lit 0.5) * (height / ofNat numSegments)
                 - height / lit 2))%js) /\
  nodePosition (addedNodes (dnaBranch radius height numSegments) v)
               (3 * numSegments + 2)
  = Some (vec3 (lit 0) (lit 0) (- height / lit 2))%js.
Proof.
  intros M L. rewrite addedNodes_dnaBranch by exact M.
  unfold nodePosition.
  split; [|split; [|split]].
  - replace (3 * i)%nat with (3 * i + 0)%nat by lia.
    rewrite dnaNodes_nth by (try destruct (i <? numSegments)%nat; lia).
    reflexivity.
  - rewrite dnaNodes_nth by (try destruct (i <? numSegments)%nat; lia).
    reflexivity.
  - intros Lt. rewrite dnaNodes_nth;
      [|lia|destruct (Nat.ltb_spec i numSegments); lia].
    unfold dnaSegmentNodes.
    destruct (Nat.ltb_spec i numSegments); [reflexivity|lia].
  - rewrite dnaNodes_core. reflexivity.
Qed.

End HelixNodes.

Section HelixShape.
Local Open Scope R_scope.

Lemma ofNat_INR (i : nat) : ofNat (F:=R) i = INR i.
Proof.
  unfold ofNat. cbn [lit RMath]. unfold Q2R, inject_Z. cbn [Qnum Qden].
  rewrite <- INR_IZR_INZ. lra.
Qed.

Lemma lit_values :
  lit (F:=R) 0 = 0 /\ lit (F:=R) 2 = 2 /\ lit (F:=R) 8 = 8
  /\ lit (F:=R) 0.5 = 1 / 2.
Proof. cbn [lit RMath]. unfold Q2R. cbn. repeat split; lra. Qed.

(** X15.  Over the real numbers, on a mounted scene: the two backbone
    cylinders of every iteration of the helix are at the same height,
    diametrically opposite, on the circle of radius [radius] around the
    axis. *)
Theorem strands_are_opposite (radius height : R) (numSegments i : nat)
    (v : Viewer R) :
  isMounted v = true ->
  (i <= numSegments)%nat ->
  exists x y z,
    nodePosition (addedNodes (dnaBranch radius height numSegments) v) (3 * i)
    = Some (vec3 x y z) /\
    nodePosition (addedNodes (dnaBranch radius height numSegments) v)
                 (3 * i + 1)
    = Some (vec3 (- x) (- y) z) /\
    x * x + y * y = radius * radius.
Proof.
  intros M L.
  destruct (helix_positions radius height numSegments v i M L)
    as (P1 & P2 & _ & _).
  eexists _, _, _. split; [exact P1|]. split.
  - rewrite P2. cbn [js_mul js_add Math_cos Math_sin Math_PI RMath].
    rewrite neg_cos, neg_sin. do 2 f_equal; ring.
  - cbn [js_mul Math_cos Math_sin RMath].
    set (a := angle1 numSegments i).
    replace (radius * cos a * (radius * cos a)
             + radius * sin a * (radius * sin a))
      with (radius * radius * (Rsqr (sin a) + Rsqr (cos a)))
      by (unfold Rsqr; ring).
    rewrite sin2_cos2. ring.
Qed.

(** X16.  Over the real numbers, on a mounted scene: the base pair of
    iteration [i] is on the axis of the helix, halfway in height between
    the backbone cylinders of iterations [i] and [i + 1]. *)
Theorem base_pair_is_halfway (radius height : R) (numSegments i : nat)
    (v : Viewer R) :
  isMounted v = true ->
  (i < numSegments)%nat ->
  exists lower upper pair,
    nodePosition (addedNodes (dnaBranch radius height numSegments) v) (3 * i)
    = Some lower /\
    nodePosition (addedNodes (dnaBranch radius height numSegments) v)
                 (3 * (i + 1))
    = Some upper /\
    nodePosition (addedNodes (dnaBranch radius height numSegments) v)
                 (3 * i + 2)
    = Some pair /\
    vx pair = 0 /\ vy pair = 0 /\
    vz pair = (vz lower + vz upper) / 2.
Proof.
  intros M L.
  destruct (helix_positions radius height numSegments v i M
              (Nat.lt_le_incl _ _ L)) as (P1 & _ & P3 & _).
  destruct (helix_positions radius height numSegments v (i + 1) M
              ltac:(lia)) as (Q1 & _ & _ & _).
  eexists _, _, _. split; [exact P1|]. split; [exact Q1|].
  split; [exact (P3 L)|].
  destruct lit_values as (L0 & L2 & _ & Lh).
  cbn [vx vy vz]. rewrite !ofNat_INR, Nat.add_1_r, S_INR.
  cbn [js_mul js_add js_sub js_div RMath].
  change (Q2R 0) with (lit (F:=R) 0). change (Q2R 2) with (lit (F:=R) 2).
  change (Q2R 0.5) with (lit (F:=R) 0.5).
  rewrite L0, L2, Lh. repeat split; lra.
Qed.


End HelixShape.

(** * The properties at work on samples *)

Section Samples.

Lemma sample_run_draws :
  list_sum (map switchDraws ["organoid"; "dna"; "organoid"]%string)
  = 1444%nat.
Proof. vm_compute. reflexivity. Qed.

Lemma switches_consumption_witness :
  isMounted sampleViewer = true /\
  random_pos (switches ["organoid"; "dna"; "organoid"]%string sampleViewer)
  = (random_pos sampleViewer + 1444)%nat.
Proof.
  split; [reflexivity|].
  rewrite <- sample_run_draws.
  exact (proj1 (proj2
           (switches_consumption ["organoid"; "dna"; "organoid"]%string
              sampleViewer eq_refl))).
Defined.

Lemma renders_are_the_changes_witness :
  deps_type (with_deps_type (Some "dna"%string) sampleViewer)
  = Some "dna"%string /\
  renders ["dna"; "organoid"; "organoid"; "dna"]%string
    (with_deps_type (Some "dna"%string) sampleViewer)
  = with_deps_type
      (Some (List.last ["dna"; "organoid"; "organoid"; "dna"]%string
               "dna"%string))
      (switches (changesOf "dna" ["dna"; "organoid"; "organoid"; "dna"]%string)
         (with_deps_type (Some "dna"%string) sampleViewer)).
Proof.
  split; [reflexivity|].
  exact (renders_are_the_changes
           ["dna"; "organoid"; "organoid"; "dna"]%string "dna"
           (with_deps_type (Some "dna"%string) sampleViewer) eq_refl).
Defined.

Lemma add_then_remove_witness :
  Forall (fun el => App.id el <> 1700000000200%Z)
    (App.addDnaElement 1700000000100%Z "Gene" []) /\
  App.removeDnaElement 1700000000200%Z
    (App.addDnaElement 1700000000200%Z "Promoter"
       (App.addDnaElement 1700000000100%Z "Gene" []))
  = App.addDnaElement 1700000000100%Z "Gene" [].
Proof.
  assert (A : Forall (fun el => App.id el <> 1700000000200%Z)
                (App.addDnaElement 1700000000100%Z "Gene" []))
    by (repeat constructor; simpl; lia).
  split; [exact A|].
  exact (add_then_remove 1700000000200%Z "Promoter"
           (App.addDnaElement 1700000000100%Z "Gene" []) A).
Defined.

Lemma increasing_ids_are_keys_witness :
  App.increasingIds
    (App.addDnaElement 20%Z "Promoter" (App.addDnaElement 10%Z "Gene" [])) /\
  App.increasingIds
    (App.removeDnaElement 10%Z
       (App.addDnaElement 20%Z "Promoter" (App.addDnaElement 10%Z "Gene" []))).
Proof.
  assert (S : App.increasingIds
    (App.addDnaElement 20%Z "Promoter" (App.addDnaElement 10%Z "Gene" [])))
    by (unfold App.increasingIds; simpl; repeat constructor; lia).
  split; [exact S|].
  exact (proj1 (proj2
    (increasing_ids_are_keys
       (App.addDnaElement 20%Z "Promoter" (App.addDnaElement 10%Z "Gene" []))
       30%Z 10%Z "Linker"
       {| App.id := 10%Z; App.type := "Gene"; App.name := "Gene 1" |} S))).
Defined.

Lemma names_repeat_after_removal_witness :
  Forall (fun el : App.DnaElement => App.id el <> 10%Z) [] /\
  (20 <> 10)%Z /\
  App.addDnaElement 30%Z "Gene"
    (App.removeDnaElement 10%Z
       (App.addDnaElement 20%Z "Gene" (App.addDnaElement 10%Z "Gene" [])))
  = [ {| App.id := 20%Z; App.type := "Gene"; App.name := "Gene 2" |};
      {| App.id := 30%Z; App.type := "Gene"; App.name := "Gene 2" |} ].
Proof.
  assert (N : (20 <> 10)%Z) by lia.
  split; [constructor|]. split; [exact N|].
  exact (names_repeat_after_removal [] "Gene" 10%Z 20%Z 30%Z
           (Forall_nil _) N).
Defined.

Lemma removal_is_a_filter_witness :
  Forall (fun el => App.id el <> 7%Z) (App.addDnaElement 10%Z "Gene" []) /\
  App.removeDnaElement 7%Z (App.addDnaElement 10%Z "Gene" [])
  = App.addDnaElement 10%Z "Gene" [].
Proof.
  assert (A : Forall (fun el => App.id el <> 7%Z)
                (App.addDnaElement 10%Z "Gene" []))
    by (repeat constructor; simpl; lia).
  split; [exact A|].
  exact (proj1 (removal_is_a_filter 7%Z 8%Z
                  (App.addDnaElement 10%Z "Gene" [])) A).
Defined.


Lemma strands_are_opposite_witness :
  isMounted sampleViewer = true /\ (3 <= 30)%nat /\
  exists x y z : R,
    nodePosition (addedNodes (dnaBranch 1%R 4%R 30) sampleViewer) (3 * 3)
    = Some (vec3 x y z) /\
    nodePosition (addedNodes (dnaBranch 1%R 4%R 30) sampleViewer) (3 * 3 + 1)
    = Some (vec3 (- x)%R (- y)%R z) /\
    (x * x + y * y = 1 * 1)%R.
Proof.
  assert (L : (3 <= 30)%nat) by lia.
  split; [reflexivity|]. split; [exact L|].
  exact (strands_are_opposite 1%R 4%R 30 3 sampleViewer eq_refl L).
Defined.

Lemma base_pair_is_halfway_witness :
  isMounted sampleViewer = true /\ (3 < 30)%nat /\
  exists lower upper pair : Vector3 R,
    nodePosition (addedNodes (dnaBranch 1%R 4%R 30) sampleViewer) (3 * 3)
    = Some lower /\
    nodePosition (addedNodes (dnaBranch 1%R 4%R 30) sampleViewer)
                 (3 * (3 + 1))
    = Some upper /\
    nodePosition (addedNodes (dnaBranch 1%R 4%R 30) sampleViewer) (3 * 3 + 2)
    = Some pair /\
    vx pair = 0%R /\ vy pair = 0%R /\
    vz pair = ((vz lower + vz upper) / 2)%R.
Proof.
  assert (L : (3 < 30)%nat) by lia.
  split; [reflexivity|]. split; [exact L|].
  exact (base_pair_is_halfway 1%R 4%R 30 3 sampleViewer eq_refl L).
Defined.


End Samples.
